(** * memory-search.py: metadata extraction, index rebuild, timeline, content access

    A shallow embedding of [MemorySearcher] (src/memory-search.py) and the
    properties of it that the specification states, followed by an
    embedding of the writer of the memory files, [SessionCapture]
    (src/capture-session.py), and of what the index reads in the files
    it writes.

    Python [str] values are modelled as [string]; a character is a code
    point below 256, so the development covers documents and file names
    whose text lies in Latin-1.  The character classes are the ones
    Python uses for that range: [str.strip] whitespace, and the classes
    [\d], [\w] and [\s] of the [re] module on [str] patterns. *)

From Stdlib Require Import String Ascii List Arith Lia Bool Permutation.
From Equations Require Import Equations.
From stdpp Require Import gmap strings sorting.
Import ListNotations.

Local Open Scope nat_scope.

(** String concatenation unfolds under [simpl] when its first argument
    starts with a constructor. *)
#[local] Arguments String.append !_ _ / : simpl nomatch.

(** ** Characters *)

Module Char.

Definition code (c : ascii) : nat := nat_of_ascii c.

Definition in_range (lo hi : nat) (c : ascii) : bool :=
  Nat.leb lo (code c) && Nat.leb (code c) hi.

(** [\d] on a [str] pattern: Unicode decimal digits; below 256 these are
    the ASCII digits only. *)
Definition is_digit (c : ascii) : bool := in_range 48 57 c.

(** [\w] on a [str] pattern: alphanumeric characters and the underscore.
    Below 256: ASCII letters and digits, [_], and the Latin-1 letters and
    numerics for which [str.isalnum] holds. *)
Definition is_word (c : ascii) : bool :=
  in_range 48 57 c || in_range 65 90 c || Nat.eqb (code c) 95 ||
  in_range 97 122 c || Nat.eqb (code c) 170 || in_range 178 179 c ||
  Nat.eqb (code c) 181 || in_range 185 186 c || in_range 188 190 c ||
  in_range 192 214 c || in_range 216 246 c || in_range 248 255 c.

(** Whitespace removed by [str.strip()]: below 256 these are TAB..CR,
    FS..US, SPACE, NEL and NBSP. *)
Definition is_space (c : ascii) : bool :=
  in_range 9 13 c || in_range 28 32 c || Nat.eqb (code c) 133 ||
  Nat.eqb (code c) 160.

Definition hash : ascii := "#"%char.
Definition hyphen : ascii := "-"%char.
Definition slash : ascii := "/"%char.
Definition newline : ascii := "010"%char.
Definition space : ascii := " "%char.

Definition is_hash (c : ascii) : bool := Ascii.eqb c hash.

End Char.

(** ** The [str] methods the tool uses *)

Module PyStr.

(** [len(s)] *)
Definition len (s : string) : nat := String.length s.

(** [s[:n]] *)
Fixpoint take (n : nat) (s : string) : string :=
  match n, s with
  | S k, String c s' => String c (take k s')
  | _, _ => EmptyString
  end.

(** [s[n:]] *)
Fixpoint drop (n : nat) (s : string) : string :=
  match n, s with
  | S k, String _ s' => drop k s'
  | _, _ => s
  end.

(** [s.startswith(p)] *)
Definition startswith (s p : string) : bool := String.prefix p s.

(** [s.endswith(p)] *)
Definition endswith (s p : string) : bool :=
  String.eqb (drop (len s - len p) s) p && Nat.leb (len p) (len s).

(** [s.lstrip()] *)
Fixpoint lstrip (s : string) : string :=
  match s with
  | String c s' => if Char.is_space c then lstrip s' else s
  | EmptyString => EmptyString
  end.

(** [s.rstrip()] *)
Fixpoint rstrip (s : string) : string :=
  match s with
  | String c s' =>
      match rstrip s' with
      | EmptyString => if Char.is_space c then EmptyString else String c EmptyString
      | r => String c r
      end
  | EmptyString => EmptyString
  end.

(** [s.strip()] *)
Definition strip (s : string) : string := rstrip (lstrip s).

(** [s.split(sep)] for a one-character separator: never the empty list,
    the empty string splits into one empty piece. *)
Fixpoint split (sep : ascii) (s : string) : list string :=
  match s with
  | EmptyString => [EmptyString]
  | String c s' =>
      if Ascii.eqb c sep then EmptyString :: split sep s'
      else match split sep s' with
           | piece :: rest => String c piece :: rest
           | [] => [String c EmptyString]
           end
  end.

(** [sep.join(pieces)] *)
Definition join (sep : string) (pieces : list string) : string :=
  String.concat sep pieces.

(** A truthy [str] is a non-empty one. *)
Definition truthy (s : string) : bool := negb (String.eqb s EmptyString).

End PyStr.

(** ** The two regular expressions *)

Module Re.

(** The pattern of the date search is a sequence of one-character atoms,
    so a match has the length of the pattern. *)
Inductive atom : Type :=
| Digit
| Lit (c : ascii).

Definition atom_matches (a : atom) (c : ascii) : bool :=
  match a with
  | Digit => Char.is_digit c
  | Lit d => Ascii.eqb c d
  end.

(** The pattern matches at the very start of [s]. *)
Fixpoint match_here (pat : list atom) (s : string) : bool :=
  match pat, s with
  | [], _ => true
  | a :: pat', String c s' => atom_matches a c && match_here pat' s'
  | _ :: _, EmptyString => false
  end.

(** [re.search(pat, s)]: the leftmost match, as the matched text. *)
Fixpoint search (pat : list atom) (s : string) : option string :=
  if match_here pat s then Some (PyStr.take (List.length pat) s)
  else match s with
       | String _ s' => search pat s'
       | EmptyString => None
       end.

(** [r'(\d{4}-\d{2}-\d{2})'] *)
Definition date_pattern : list atom :=
  [Digit; Digit; Digit; Digit; Lit Char.hyphen; Digit; Digit;
   Lit Char.hyphen; Digit; Digit].

(** The greedy [\w+] of the tag pattern: the longest run of word
    characters at the start of [s], and what follows it. *)
Fixpoint take_word (s : string) : string :=
  match s with
  | String c s' => if Char.is_word c then String c (take_word s') else EmptyString
  | EmptyString => EmptyString
  end.

Fixpoint drop_word (s : string) : string :=
  match s with
  | String c s' => if Char.is_word c then drop_word s' else s
  | EmptyString => EmptyString
  end.

(** [r'#\w+'] matches at the start of [String c s']. *)
Definition tag_here (c : ascii) (s' : string) : bool :=
  Char.is_hash c && PyStr.truthy (take_word s').

(** [re.findall(r'#\w+', s)]: the matches from left to right, each scan
    resuming where the previous match ended. *)
Equations findall (s : string) : list string by wf (String.length s) lt :=
findall EmptyString := [];
findall (String c s') with tag_here c s' := {
  | true => String c (take_word s') :: findall (drop_word s')
  | false => findall s' }.
Next Obligation.
  intros c s' _. simpl.
  enough (String.length (drop_word s') <= String.length s') by lia.
  induction s' as [|d t IH]; simpl; [lia|].
  destruct (Char.is_word d); simpl; lia.
Qed.
Next Obligation.
  intros c s' _. simpl. lia.
Qed.

End Re.

(** ** Paths *)

Module PyPath.

(** The components [Path(p)] keeps: empty and [.] components are dropped. *)
Definition parts (p : string) : list string :=
  List.filter (fun x => PyStr.truthy x && negb (String.eqb x "."))
    (PyStr.split Char.slash p).

(** [Path(p).name]: the final component, or the empty string. *)
Definition name (p : string) : string := List.last (parts p) EmptyString.

(** Paths compare as the lists of their components, component by
    component in code-point order; a proper prefix comes first. *)
Fixpoint parts_leb (a b : list string) : bool :=
  match a, b with
  | [], _ => true
  | _ :: _, [] => false
  | x :: a', y :: b' =>
      match String.compare x y with
      | Lt => true
      | Gt => false
      | Eq => parts_leb a' b'
      end
  end.

Definition leb (p q : string) : bool :=
  parts_leb (PyStr.split Char.slash p) (PyStr.split Char.slash q).

Fixpoint insert (p : string) (l : list string) : list string :=
  match l with
  | [] => [p]
  | q :: l' => if leb p q then p :: l else q :: insert p l'
  end.

(** [sorted(paths)] *)
Definition sorted (l : list string) : list string := fold_right insert [] l.

End PyPath.

(** ** The searcher *)

Module MemorySearcher.

(** An entry of the directory tree under [memory_dir]: its path as
    [str(path)] prints it, and the text [open(...).read()] returns, or
    [None] when opening, reading or decoding it raises. *)
Record file : Type := File {
  f_path : string;
  f_data : option string
}.

(** A row of the [memory_fts] table. *)
Record record : Type := Row {
  file_path : string;
  content : string;
  date_created : string;
  tags : string;
  summary : string
}.

(** [self.memory_dir.glob("**/*.md")]: the entries of the tree, in the
    order the traversal yields them, whose name matches [*.md]. *)
Definition glob_md (tree : list file) : list file :=
  List.filter (fun f => PyStr.endswith (PyPath.name (f_path f)) ".md") tree.

(** Lines 60-61: the date of a file name. *)
Definition extract_date (name : string) : string :=
  match Re.search Re.date_pattern name with
  | Some d => d
  | None => "unknown"
  end.

(** Line 62: the tags of a document. *)
Definition extract_tags (text : string) : string :=
  PyStr.join " " (Re.findall text).

(** Line 64: a line the generator of [first_para] keeps. *)
Definition body_line (l : string) : bool :=
  PyStr.truthy (PyStr.strip l) && negb (PyStr.startswith l "#").

(** Lines 63-65: the summary of a document. *)
Definition extract_summary (text : string) : string :=
  let lines := PyStr.split Char.newline (PyStr.strip text) in
  let first_para :=
    match List.find body_line lines with
    | Some l => PyStr.strip l
    | None => PyStr.take 200 text
    end in
  PyStr.take 200 first_para.

(** Lines 60-67: the row inserted for a file that was read. *)
Definition make_record (path text : string) : record :=
  {| file_path := path;
     content := text;
     date_created := extract_date (PyPath.name path);
     tags := extract_tags text;
     summary := extract_summary text |}.

(** The state of one run of [index_memory_files]: the table, the counter
    [indexed], and the paths a warning was printed for. *)
Record index_state : Type := IndexState {
  table : list record;
  indexed : nat;
  warned : list string
}.

(** One iteration of the loop of lines 55-70: a hidden file is passed
    over; a file that cannot be read gets a warning and no row; a file
    that was read gets its row, and the counter goes up. *)
Definition index_file (st : index_state) (md_file : file) : index_state :=
  if PyStr.startswith (PyPath.name (f_path md_file)) "." then st
  else match f_data md_file with
       | Some text =>
           {| table := table st ++ [make_record (f_path md_file) text];
              indexed := S (indexed st);
              warned := warned st |}
       | None =>
           {| table := table st;
              indexed := indexed st;
              warned := warned st ++ [f_path md_file] |}
       end.

(** Line 53: [DELETE FROM memory_fts]. *)
Definition delete_all (db : list record) : list record := [].

(** Lines 51-73.  [db] is the table before the call. *)
Definition index_memory_files (tree : list file) (db : list record)
  : index_state :=
  List.fold_left index_file (glob_md tree)
    {| table := delete_all db; indexed := 0; warned := [] |}.

(** An element of the list [timeline] returns. *)
Record entry : Type := Entry {
  e_file : string;
  e_date : string;
  e_path : string
}.

(** One iteration of the loop of lines 91-93. *)
Definition timeline_step (files : list entry) (md : string) : list entry :=
  match Re.search Re.date_pattern (PyPath.name md) with
  | Some d => files ++ [{| e_file := PyPath.name md; e_date := d; e_path := md |}]
  | None => files
  end.

(** Lines 89-94. *)
Definition timeline (tree : list file) (around_date : option string)
  : list entry :=
  List.fold_left timeline_step
    (PyPath.sorted (List.map f_path (glob_md tree))) [].

(** What the [timeline] command prints (lines 114-116): the whole list
    with [--json], else one line for each of the last ten entries. *)
Inductive printed : Type :=
| Json (entries : list entry)
| Text (s : string).

Definition last_ten (t : list entry) : list entry :=
  List.skipn (List.length t - 10) t.

Definition timeline_line (e : entry) : string :=
  (e_date e +:+ " - " +:+ e_file e)%string.

Definition main_timeline (tree : list file) (date : option string)
    (json : bool) : printed :=
  let t := timeline tree date in
  if json then Json t
  else Text (PyStr.join (String Char.newline EmptyString)
               (List.map timeline_line (last_ten t))).

(** The exception that leaves [get_content] when [open(p).read()] raises. *)
Inductive raised : Type :=
| OpenFailed (p : string).

(** Lines 96-97.  [fs] maps a path to the text [open(p).read()] returns;
    a path it does not hold cannot be opened or read.  The comprehension
    stores each text under the name of its path, a later path replacing
    an earlier one of the same name, and stops at the first exception. *)
Fixpoint get_content_from (fs : gmap string string)
    (acc : gmap string string) (paths : list string)
  : raised + gmap string string :=
  match paths with
  | [] => inr acc
  | p :: rest =>
      match fs !! p with
      | Some text => get_content_from fs (<[PyPath.name p := text]> acc) rest
      | None => inl (OpenFailed p)
      end
  end.

Definition get_content (fs : gmap string string) (paths : list string)
  : raised + gmap string string :=
  get_content_from fs ∅ paths.

(** A row of the query of lines 78-82: four stored columns and the
    snippet the full-text engine computes. *)
Record hit : Type := Hit {
  h_file_path : string;
  h_summary : string;
  h_date_created : string;
  h_tags : string;
  h_snippet : string
}.

(** An element of the list [search] returns (lines 83-85). *)
Record found : Type := Found {
  r_file : string;
  r_date : string;
  r_snippet : string;
  r_tags : string;
  r_path : string
}.

Definition found_of_hit (r : hit) : found :=
  {| r_file := PyPath.name (h_file_path r);
     r_date := h_date_created r;
     r_snippet := h_snippet r;
     r_tags := h_tags r;
     r_path := h_file_path r |}.

Section Search.

(** The [MATCH ... ORDER BY rank LIMIT ?] query is run by the FTS5
    extension of SQLite, which is no part of these sources: it either
    raises, here [None], or yields the ranked rows. *)
Variable fts5_match : list record -> string -> nat -> option (list hit).

(** Lines 75-87: no check of the query text, no handler around the query. *)
Definition search (db : list record) (query : string) (limit : nat)
  : option (list found) :=
  match fts5_match db query limit with
  | Some rows => Some (List.map found_of_hit rows)
  | None => None
  end.

End Search.

End MemorySearcher.

(** ** The writer of the memory files (capture-session.py) *)

Module SessionCapture.

(** [str.lower()] on one character: below 256 the letters [A]-[Z] and
    the capital Latin-1 letters move up by 32, the rest stays. *)
Definition lower_char (c : ascii) : ascii :=
  if Char.in_range 65 90 c || Char.in_range 192 214 c || Char.in_range 216 222 c
  then ascii_of_nat (Char.code c + 32)
  else c.

(** [s.lower()] *)
Fixpoint lower (s : string) : string :=
  match s with
  | String c s' => String (lower_char c) (lower s')
  | EmptyString => EmptyString
  end.

(** [sub in s] *)
Fixpoint contains (s sub : string) : bool :=
  String.prefix sub s ||
  match s with
  | String _ s' => contains s' sub
  | EmptyString => false
  end.

(** [any(m in s for m in markers)] *)
Definition any_in (s : string) (markers : list string) : bool :=
  List.existsb (contains s) markers.

Definition nl2 : string := String Char.newline (String Char.newline EmptyString).

(** Lines 40-45. *)
Definition keywords : list (string * list string) :=
  [ ("memory", ["memory"; "remember"; "persistence"]);
    ("decision", ["decided"; "conclusion"; "chose"]);
    ("tools", ["skill"; "script"; "tool"; "build"]);
    ("philosophy", ["continuity"; "existence"; "identity"]) ].

(** Lines 46-49: the tags added for the topics whose words occur in the
    lowered text. *)
Definition topic_tags (text : string) : list string :=
  List.map (fun kw => String Char.hash (fst kw))
    (List.filter (fun kw => any_in (lower text) (snd kw)) keywords).

(** Lines 38-50, as the set [tags] holds when the function returns; the
    order of the list made from it is not fixed by the language. *)
Definition extract_tags (text : string) : gset string :=
  list_to_set (Re.findall text) ∪ list_to_set (topic_tags text).

(** Line 55: the name of the file of a day. *)
Definition observations_name (date_str : string) : string :=
  date_str +:+ "-observations.md".

(** Line 58: what is written first into a file of size zero. *)
Definition day_header (old date_str : string) : string :=
  if PyStr.truthy old then EmptyString
  else "# " +:+ date_str +:+ " observations" +:+ nl2.

(** Line 61: the tags line, left out when the list is empty. *)
Definition tags_line (tags : list string) (ending : string) : string :=
  match tags with
  | [] => EmptyString
  | _ :: _ => "tags: " +:+ PyStr.join " " tags +:+ ending
  end.

(** Lines 52-62: the text of the file after [capture] appended to the
    text [old] (empty for a new file); [hhmm] is the time of day as
    [strftime] prints it and [tags] the list [_extract_tags] returned. *)
Definition capture_text
    (old date_str hhmm obs_type content : string) (tags : list string) : string :=
  old +:+ day_header old date_str
      +:+ "## " +:+ hhmm +:+ " - " +:+ obs_type +:+ nl2
      +:+ content +:+ nl2
      +:+ tags_line tags nl2
      +:+ "---" +:+ nl2.

(** Lines 64-67: the content [decision] hands to [capture]. *)
Definition decision_content (text : string) (reasoning : option string) : string :=
  match reasoning with
  | Some r => if PyStr.truthy r
              then "Decision: " +:+ text +:+ nl2 +:+ "Reasoning: " +:+ r
              else "Decision: " +:+ text
  | None => "Decision: " +:+ text
  end.

(** Lines 69-72: the content [insight] hands to [capture]. *)
Definition insight_content (text : string) (source : option string) : string :=
  match source with
  | Some src => if PyStr.truthy src then text +:+ nl2 +:+ "Source: " +:+ src else text
  | None => text
  end.

(** The characters [re.sub(r'[^\w\s\-]', '', title)] keeps. *)
Definition kept (c : ascii) : bool :=
  Char.is_word c || Char.is_space c || Ascii.eqb c Char.hyphen.

Fixpoint keep_only (f : ascii -> bool) (s : string) : string :=
  match s with
  | String c s' => if f c then String c (keep_only f s') else keep_only f s'
  | EmptyString => EmptyString
  end.

(** Line 79. *)
Definition sanitize_title (title : string) : string :=
  PyStr.take 100 (PyStr.strip (keep_only kept title)).

(** Lines 78-79 and 90: the title [compress] uses. *)
Definition used_title (title : option string) (hhmm_digits : string) : string :=
  let fallback := "conversation-" +:+ hhmm_digits in
  match title with
  | Some t =>
      if PyStr.truthy t
      then (if PyStr.truthy (sanitize_title t) then sanitize_title t else fallback)
      else fallback
  | None => fallback
  end.

(** Line 91: the name of the file [compress] writes. *)
Definition compressed_name (date_str : string) (title : option string)
    (hhmm_digits : string) : string :=
  date_str +:+ "-" +:+ used_title title hhmm_digits +:+ ".md".

(** The four lists of line 80. *)
Record buckets : Type := Buckets {
  decisions : list string;
  actions : list string;
  insights : list string;
  questions : list string
}.

Definition decision_markers : list string := ["decided"; "concluded"; "chose"].
Definition action_markers : list string := ["built"; "created"; "posted"; "implemented"].
Definition insight_markers : list string := ["realized"; "understood"; "noticed"].

(** Lines 82-88: one line of the conversation. *)
Definition sort_line (b : buckets) (raw : string) : buckets :=
  let line := PyStr.strip raw in
  if negb (PyStr.truthy line) then b
  else
    let ll := lower line in
    if any_in ll decision_markers then
      {| decisions := decisions b ++ [line]; actions := actions b;
         insights := insights b; questions := questions b |}
    else if contains line "?" && Nat.ltb (PyStr.len line) 200 then
      {| decisions := decisions b; actions := actions b;
         insights := insights b; questions := questions b ++ [line] |}
    else if any_in ll action_markers then
      {| decisions := decisions b; actions := actions b ++ [line];
         insights := insights b; questions := questions b |}
    else if any_in ll insight_markers then
      {| decisions := decisions b; actions := actions b;
         insights := insights b ++ [line]; questions := questions b |}
    else b.

(** Lines 80-88. *)
Definition sort_lines (conversation : string) : buckets :=
  List.fold_left sort_line (PyStr.split Char.newline conversation)
    {| decisions := []; actions := []; insights := []; questions := [] |}.



End SessionCapture.

(** * The vocabulary of the properties *)

Section Vocabulary.

Import MemorySearcher.

(** Every character of [s] is whitespace. *)
Fixpoint all_space (s : string) : Prop :=
  match s with
  | EmptyString => True
  | String c s' => Char.is_space c = true /\ all_space s'
  end.

(** [s] does not start with whitespace. *)
Definition trimmed_left (s : string) : Prop :=
  match s with
  | String c _ => Char.is_space c = false
  | EmptyString => True
  end.

(** [s] does not end with whitespace. *)
Definition trimmed_right (s : string) : Prop :=
  forall t c, s = t +:+ String c EmptyString -> Char.is_space c = false.

(** [d] is matched, character by character, by the atoms of [pat]. *)
Fixpoint has_shape (pat : list Re.atom) (d : string) : Prop :=
  match pat, d with
  | [], EmptyString => True
  | a :: pat', String c d' => Re.atom_matches a c = true /\ has_shape pat' d'
  | _, _ => False
  end.

(** Four digits, a hyphen, two digits, a hyphen, two digits. *)
Definition date_shape (d : string) : Prop :=
  exists y1 y2 y3 y4 m1 m2 d1 d2 : ascii,
    d = String y1 (String y2 (String y3 (String y4 (String "-"
          (String m1 (String m2 (String "-"
             (String d1 (String d2 EmptyString)))))))))
    /\ Forall (fun c => Char.is_digit c = true) [y1; y2; y3; y4; m1; m2; d1; d2].

(** [d] occurs in [s] after the prefix [pre]. *)
Definition occurs_at (pre d s : string) : Prop :=
  exists post, s = pre +:+ d +:+ post.

Fixpoint all_word (w : string) : Prop :=
  match w with
  | EmptyString => True
  | String c w' => Char.is_word c = true /\ all_word w'
  end.

(** A hashtag token: [#] followed by one or more word characters. *)
Definition is_tag (t : string) : Prop :=
  exists w, t = String Char.hash w /\ w <> EmptyString /\ all_word w.

(** What follows a token is not a word character: the token is maximal. *)
Definition not_word_start (rest : string) : Prop :=
  match rest with
  | String c _ => Char.is_word c = false
  | EmptyString => True
  end.

(** No hashtag token starts inside [gap]. *)
Definition tag_free (gap : string) : Prop :=
  forall a c b, gap = a +:+ String Char.hash (String c b) -> Char.is_word c = false.

(** [scans s ts]: reading [s] from left to right, [ts] lists its hashtag
    tokens in the order in which they occur, with the text between them
    holding no token. *)
Inductive scans : string -> list string -> Prop :=
| scans_end gap : tag_free gap -> scans gap []
| scans_tag gap w rest ts :
    tag_free gap -> w <> EmptyString -> all_word w -> not_word_start rest ->
    scans rest ts ->
    scans (gap +:+ String Char.hash w +:+ rest) (String Char.hash w :: ts).

(** The maximal hashtag token that starts at the very beginning of [s]. *)
Definition token_at (s : string) : option string :=
  match s with
  | String c s' =>
      if Re.tag_here c s' then Some (String c (Re.take_word s')) else None
  | EmptyString => None
  end.

(** The number of places of [s] at which the token [t] starts. *)
Fixpoint occurrences (t s : string) : nat :=
  (match token_at s with
   | Some t' => if string_dec t' t then 1 else 0
   | None => 0
   end) +
  match s with
  | String _ s' => occurrences t s'
  | EmptyString => 0
  end.

(** A line the summary passes over: blank once trimmed, or a heading. *)
Definition passed_over (l : string) : Prop :=
  PyStr.strip l = EmptyString \/ PyStr.startswith l "#" = true.

(** [c * n] *)
Definition repeat_char (c : ascii) (n : nat) : string :=
  string_of_list_ascii (List.repeat c n).

Definition lines_text (lines : list string) : string :=
  PyStr.join (String Char.newline EmptyString) lines.

(** A document whose second line is one letter followed by 249 spaces. *)
Definition padded_line : string := "a" +:+ repeat_char Char.space 249.
Definition padded_doc : string := lines_text ["# Title"; padded_line; "end"].

(** A document whose first line is an indented heading. *)
Definition indented_doc : string := lines_text [" #x"; "foo"].

(** A document whose first body line is 250 letters long. *)
Definition long_doc : string :=
  lines_text ["# Title"; ""; repeat_char "a" 250; "end"].

(** The entry of a path whose name holds a date. *)
Definition dated_entry (md : string) : list entry :=
  match Re.search Re.date_pattern (PyPath.name md) with
  | Some d => [{| e_file := PyPath.name md; e_date := d; e_path := md |}]
  | None => []
  end.

Definition sample_dated : file :=
  {| f_path := "memory/2026-02-01-notes.md"; f_data := Some "# notes" |}.
Definition sample_undated : file :=
  {| f_path := "memory/notes.md"; f_data := Some "hello" |}.
Definition sample_tree : list file := [sample_undated; sample_dated].

(** The name of the file matches [*.md]. *)
Definition is_document (f : file) : bool :=
  PyStr.endswith (PyPath.name (f_path f)) ".md".

(** The name of the file starts with a dot. *)
Definition hidden (f : file) : bool :=
  PyStr.startswith (PyPath.name (f_path f)) ".".

(** The row the loop inserts for a file, if it inserts one. *)
Definition row_of (f : file) : list record :=
  if hidden f then []
  else match f_data f with
       | Some text => [make_record (f_path f) text]
       | None => []
       end.

(** The warning the loop prints for a file, if it prints one. *)
Definition warning_of (f : file) : list string :=
  if hidden f then []
  else match f_data f with
       | Some _ => []
       | None => [f_path f]
       end.

(** The number of rows of a table stored under a path. *)
Definition rows_at (p : string) (t : list record) : nat :=
  List.length (List.filter (fun r => String.eqb (file_path r) p) t).

Definition sample_unreadable : file :=
  {| f_path := "memory/2026-03-05-broken.md"; f_data := None |}.
Definition sample_hidden : file :=
  {| f_path := "memory/.2026-03-06-draft.md"; f_data := Some "draft" |}.
Definition sample_other : file :=
  {| f_path := "memory/readme.txt"; f_data := Some "read me" |}.
Definition sample_root : list file :=
  [sample_undated; sample_unreadable; sample_hidden; sample_other; sample_dated].

Definition sample_fs : gmap string string :=
  {[ "memory/a.md" := "hello world"; "archive/a.md" := "older" ]}.

(** The order in which [sorted] puts two paths. *)
Definition path_le (p q : string) : Prop := PyPath.leb p q = true.

(** The order of two timeline entries: that of their paths. *)
Definition entry_le (a b : entry) : Prop := path_le (e_path a) (e_path b).

(** [s] holds no character [c]. *)
Definition free_of (c : ascii) (s : string) : Prop :=
  forall a b, s <> a +:+ String c b.

(** Every character of [s] satisfies [f]. *)
Definition all_chars (f : ascii -> bool) (s : string) : Prop :=
  forall a c b, s = a +:+ String c b -> f c = true.

(** The character is not a slash. *)
Definition not_slash (c : ascii) : bool := negb (Ascii.eqb c Char.slash).

(** What [capture] writes between the old text and the content: the
    header of a new file and the heading of the observation. *)
Definition capture_heading (old date_str hhmm obs_type : string) : string :=
  SessionCapture.day_header old date_str
  +:+ "## " +:+ hhmm +:+ " - " +:+ obs_type.

(** The line [l] was filed as the trimmed form of a line of [conversation]. *)
Definition filed_from (conversation l : string) : Prop :=
  l <> EmptyString
  /\ exists raw, In raw (PyStr.split Char.newline conversation) /\ l = PyStr.strip raw.

(** The line reads as a short question. *)
Definition short_question (l : string) : bool :=
  SessionCapture.contains l "?" && Nat.ltb (PyStr.len l) 200.

(** What holds of four lists of filed lines: each line came from the
    conversation, and went to the first list whose test it passes. *)
Definition well_sorted (conversation : string) (b : SessionCapture.buckets) : Prop :=
  (forall l, In l (SessionCapture.decisions b) ->
     filed_from conversation l
     /\ SessionCapture.any_in (SessionCapture.lower l)
          SessionCapture.decision_markers = true)
  /\ (forall l, In l (SessionCapture.questions b) ->
       filed_from conversation l
       /\ SessionCapture.any_in (SessionCapture.lower l)
            SessionCapture.decision_markers = false
       /\ short_question l = true)
  /\ (forall l, In l (SessionCapture.actions b) ->
       filed_from conversation l
       /\ SessionCapture.any_in (SessionCapture.lower l)
            SessionCapture.decision_markers = false
       /\ short_question l = false
       /\ SessionCapture.any_in (SessionCapture.lower l)
            SessionCapture.action_markers = true)
  /\ (forall l, In l (SessionCapture.insights b) ->
       filed_from conversation l
       /\ SessionCapture.any_in (SessionCapture.lower l)
            SessionCapture.decision_markers = false
       /\ short_question l = false
       /\ SessionCapture.any_in (SessionCapture.lower l)
            SessionCapture.action_markers = false
       /\ SessionCapture.any_in (SessionCapture.lower l)
            SessionCapture.insight_markers = true).

(** The number of lines filed in the four lists. *)
Definition filed_count (b : SessionCapture.buckets) : nat :=
  List.length (SessionCapture.decisions b) + List.length (SessionCapture.actions b)
  + List.length (SessionCapture.insights b) + List.length (SessionCapture.questions b).


End Vocabulary.

(** * Properties *)

(** ** Strings *)

Section StringFacts.

Lemma append_nil_r (s : string) : s +:+ "" = s.
Proof. induction s as [|c s IH]; simpl; congruence. Qed.

Lemma append_assoc (a b c : string) : (a +:+ b) +:+ c = a +:+ (b +:+ c).
Proof. induction a as [|x a IH]; simpl; congruence. Qed.

Lemma length_append (a b : string) :
  String.length (a +:+ b) = String.length a + String.length b.
Proof. induction a as [|x a IH]; simpl; congruence. Qed.

Lemma take_drop (n : nat) (s : string) : PyStr.take n s +:+ PyStr.drop n s = s.
Proof.
  revert s; induction n as [|n IH]; intros [|c s]; simpl; try reflexivity.
  now rewrite IH.
Qed.

Lemma length_take (n : nat) (s : string) :
  String.length (PyStr.take n s) = Nat.min n (String.length s).
Proof.
  revert s; induction n as [|n IH]; intros [|c s]; simpl; try reflexivity.
  now rewrite IH.
Qed.

Lemma take_append (a b : string) : PyStr.take (String.length a) (a +:+ b) = a.
Proof. induction a as [|x a IH]; simpl; [now destruct b | congruence]. Qed.

Lemma take_all (n : nat) (s : string) :
  String.length s <= n -> PyStr.take n s = s.
Proof.
  revert s; induction n as [|n IH]; intros [|c s] Hle; simpl in *;
    try reflexivity; try lia.
  rewrite IH; [reflexivity | lia].
Qed.

Lemma prefix_append (a b : string) : String.prefix a (a +:+ b) = true.
Proof.
  induction a as [|x a IH]; simpl; [now destruct b|].
  destruct (ascii_dec x x); [assumption | congruence].
Qed.

Lemma prefix_take (n : nat) (s : string) : String.prefix (PyStr.take n s) s = true.
Proof.
  rewrite <- (take_drop n s) at 2. apply prefix_append.
Qed.

Lemma split_nonempty sep s : PyStr.split sep s <> [].
Proof.
  destruct s as [|c s]; simpl; [discriminate|].
  destruct (Ascii.eqb c sep); [discriminate|].
  destruct (PyStr.split sep s); discriminate.
Qed.

(** Joining the pieces of a split with the separator gives the string back. *)
Lemma join_split sep s :
  PyStr.join (String sep EmptyString) (PyStr.split sep s) = s.
Proof.
  unfold PyStr.join. induction s as [|c s IH]; [reflexivity|].
  simpl. pose proof (split_nonempty sep s) as Hne.
  destruct (Ascii.eqb_spec c sep) as [-> | Hc].
  - simpl. destruct (PyStr.split sep s) as [|piece rest]; [contradiction|].
    now rewrite IH.
  - destruct (PyStr.split sep s) as [|piece [|q rest]]; [contradiction| |];
      simpl in *; now rewrite <- IH.
Qed.

(** No piece of a split holds the separator. *)
Lemma split_pieces sep s piece a b :
  In piece (PyStr.split sep s) -> piece <> a +:+ String sep b.
Proof.
  revert piece a. induction s as [|c s IH]; intros piece a; simpl.
  - intros [<- | []]. now destruct a.
  - destruct (Ascii.eqb_spec c sep) as [-> | Hc].
    + intros [<- | Hin]; [now destruct a | now apply IH].
    + pose proof (split_nonempty sep s) as Hne.
      destruct (PyStr.split sep s) as [|p rest]; [contradiction|].
      intros [<- | Hin].
      * destruct a as [|x a]; simpl; [congruence|].
        intros [= -> Heq]. now apply (IH p a (or_introl eq_refl)).
      * apply IH. now right.
Qed.

(** [lstrip] removes a run of whitespace from the left, all of it. *)
Lemma lstrip_spec s :
  exists ws, s = ws +:+ PyStr.lstrip s /\ all_space ws
    /\ trimmed_left (PyStr.lstrip s).
Proof.
  induction s as [|c s (ws & Heq & Hws & Hl)]; simpl.
  - now exists EmptyString.
  - destruct (Char.is_space c) eqn:Hc.
    + exists (String c ws). simpl. rewrite <- Heq. auto.
    + exists EmptyString. simpl. auto.
Qed.

(** [rstrip] removes a run of whitespace from the right, all of it. *)
Lemma rstrip_spec s :
  exists ws, s = PyStr.rstrip s +:+ ws /\ all_space ws
    /\ trimmed_right (PyStr.rstrip s).
Proof.
  induction s as [|c s (ws & Heq & Hws & Hr)]; simpl.
  - exists EmptyString. repeat split. intros [|? ?] ? [=].
  - destruct (PyStr.rstrip s) as [|d r] eqn:Hrs.
    + simpl in Heq. subst ws. destruct (Char.is_space c) eqn:Hc.
      * exists (String c s). repeat split; assumption.
      * exists s. repeat split; [assumption|].
        intros [|x [|? ?]] y [=]. now subst.
    + exists ws. split; [simpl in *; congruence|]. split; [assumption|].
      intros [|x t] y; simpl; [intros [=]|].
      intros [= -> Heq']. now apply (Hr t y).
Qed.

(** [strip] removes the whitespace at both ends and nothing else. *)
Lemma strip_spec s :
  exists l r, s = l +:+ PyStr.strip s +:+ r /\ all_space l /\ all_space r
    /\ trimmed_right (PyStr.strip s)
    /\ (PyStr.strip s = EmptyString \/ trimmed_left (PyStr.strip s)).
Proof.
  unfold PyStr.strip.
  destruct (lstrip_spec s) as (l & Hl & Hls & Hleft).
  destruct (rstrip_spec (PyStr.lstrip s)) as (r & Hr & Hrs & Hright).
  exists l, r. rewrite <- Hr. repeat split; try assumption.
  destruct (PyStr.rstrip (PyStr.lstrip s)) as [|c t] eqn:Ht; [now left|right].
  rewrite Hr in Hleft. exact Hleft.
Qed.

End StringFacts.

(** ** The date of a file name *)

Section DateFacts.

Lemma has_shape_length pat d : has_shape pat d -> String.length d = List.length pat.
Proof.
  revert d; induction pat as [|a pat IH]; intros [|c d]; simpl; try tauto.
  intros [_ H]. now rewrite (IH d H).
Qed.

Lemma match_here_shape pat s :
  Re.match_here pat s = true <->
  exists d rest, s = d +:+ rest /\ has_shape pat d.
Proof.
  revert s; induction pat as [|a pat IH]; intros s; simpl.
  - split; [intros _; exists EmptyString, s; now split|reflexivity].
  - destruct s as [|c s].
    + split; [discriminate|]. intros ([|x d] & rest & Heq & Hsh); simpl in *;
        [tauto | discriminate].
    + rewrite andb_true_iff, IH. split.
      * intros (Ha & d & rest & -> & Hsh). exists (String c d), rest. now repeat split.
      * intros ([|x d] & rest & Heq & Hsh); simpl in *; [tauto|].
        destruct Hsh as [Ha Hsh]. injection Heq as -> ->. split; [assumption|].
        now exists d, rest.
Qed.

Lemma match_here_take pat s :
  Re.match_here pat s = true ->
  exists d rest, s = d +:+ rest /\ has_shape pat d /\
    PyStr.take (List.length pat) s = d.
Proof.
  intros (d & rest & -> & Hsh)%match_here_shape. exists d, rest.
  repeat split; [assumption|].
  rewrite <- (has_shape_length _ _ Hsh). apply take_append.
Qed.

Lemma date_shape_iff d : has_shape Re.date_pattern d <-> date_shape d.
Proof.
  unfold date_shape, Re.date_pattern. split.
  - destruct d as [|y1 [|y2 [|y3 [|y4 [|h1 [|m1 [|m2 [|h2 [|d1 [|d2 [|? ?]]]]]]]]]]];
      simpl; try tauto.
    intros (H1 & H2 & H3 & H4 & H5 & H6 & H7 & H8 & H9 & H10 & _).
    apply Ascii.eqb_eq in H5, H8. subst h1 h2.
    exists y1, y2, y3, y4, m1, m2, d1, d2. split; [reflexivity|].
    repeat constructor; assumption.
  - intros (y1 & y2 & y3 & y4 & m1 & m2 & d1 & d2 & -> & HF).
    repeat match goal with H : Forall _ (_ :: _) |- _ => inversion_clear H end.
    simpl. repeat split; assumption.
Qed.

(** [re.search] returns the leftmost occurrence of the shape, and [None]
    exactly when the shape occurs nowhere. *)
Lemma search_leftmost pat s :
  match Re.search pat s with
  | Some d =>
      exists pre, occurs_at pre d s /\ has_shape pat d /\
        forall pre' d', occurs_at pre' d' s -> has_shape pat d' ->
          String.length pre <= String.length pre'
  | None => forall pre' d', occurs_at pre' d' s -> ~ has_shape pat d'
  end.
Proof.
  assert (Hhere : forall t, Re.match_here pat t = true ->
            exists pre, occurs_at pre (PyStr.take (List.length pat) t) t /\
              has_shape pat (PyStr.take (List.length pat) t) /\
              forall pre' d', occurs_at pre' d' t -> has_shape pat d' ->
                String.length pre <= String.length pre').
  { intros t (d & rest & Heq & Hsh & ->)%match_here_take.
    exists EmptyString. split; [now exists rest|].
    split; [assumption|]. intros; simpl; lia. }
  assert (Hnot : forall t d' post', Re.match_here pat t = false ->
            t = d' +:+ post' -> ~ has_shape pat d').
  { intros t d' post' Hm Heq Hsh.
    assert (Re.match_here pat t = true) as Hm'
      by (apply match_here_shape; now exists d', post').
    congruence. }
  induction s as [|c s IH].
  - simpl. destruct (Re.match_here pat "") eqn:Hm; [now apply Hhere|].
    intros [|x pre'] d' [post Heq] Hsh; [|discriminate].
    exact (Hnot _ d' post Hm Heq Hsh).
  - cbn [Re.search]. destruct (Re.match_here pat (String c s)) eqn:Hm;
      [now apply Hhere|].
    destruct (Re.search pat s) as [d|].
    + destruct IH as (pre & [post Heq] & Hsh & Hmin).
      exists (String c pre). split; [exists post; simpl; now rewrite <- Heq|].
      split; [assumption|].
      intros [|x pre'] d' [post' Heq'] Hsh'.
      * exfalso. exact (Hnot _ d' post' Hm Heq' Hsh').
      * simpl in Heq'. injection Heq' as -> Heq'. simpl.
        enough (String.length pre <= String.length pre') by lia.
        apply (Hmin pre' d'); [now exists post'|assumption].
    + intros [|x pre'] d' [post' Heq'] Hsh'.
      * exfalso. exact (Hnot _ d' post' Hm Heq' Hsh').
      * simpl in Heq'. injection Heq' as -> Heq'.
        apply (IH pre' d'); [now exists post'|assumption].
Qed.

Lemma date_shape_not_unknown d : date_shape d -> d <> "unknown".
Proof.
  intros (y1 & y2 & y3 & y4 & m1 & m2 & d1 & d2 & -> & _). discriminate.
Qed.

(** C5. The date of a file name is its leftmost substring of the shape
    four digits, hyphen, two digits, hyphen, two digits, whatever the
    digits are, and the string [unknown] when the name has no such
    substring; [2026-02-01-notes.md] gives [2026-02-01], [notes.md] gives
    [unknown], and the impossible date of [9999-99-99.md] is accepted. *)
Theorem extract_date_leftmost_or_unknown :
  (forall name : string,
     (exists pre, occurs_at pre (MemorySearcher.extract_date name) name /\
        date_shape (MemorySearcher.extract_date name) /\
        forall pre' d', occurs_at pre' d' name -> date_shape d' ->
          String.length pre <= String.length pre')
     \/ ((forall pre' d', occurs_at pre' d' name -> ~ date_shape d') /\
         MemorySearcher.extract_date name = "unknown"))
  /\ MemorySearcher.date_created
       (MemorySearcher.make_record "memory/2026-02-01-notes.md" "text") = "2026-02-01"
  /\ MemorySearcher.date_created
       (MemorySearcher.make_record "memory/notes.md" "text") = "unknown"
  /\ MemorySearcher.extract_date "9999-99-99.md" = "9999-99-99".
Proof.
  split; [|repeat split; vm_compute; reflexivity].
  intros name. unfold MemorySearcher.extract_date.
  pose proof (search_leftmost Re.date_pattern name) as H.
  destruct (Re.search Re.date_pattern name) as [d|].
  - left. destruct H as (pre & Hocc & Hsh & Hmin).
    exists pre. split; [assumption|]. split; [now apply date_shape_iff|].
    intros pre' d' Hocc' Hsh'. apply (Hmin pre' d' Hocc'). now apply date_shape_iff.
  - right. split; [|reflexivity].
    intros pre' d' Hocc' Hsh'. apply (H pre' d' Hocc'). now apply date_shape_iff.
Qed.

End DateFacts.

(** ** The tags of a document *)

Section TagFacts.

Create HintDb tags.

Lemma findall_cons c s' :
  Re.findall (String c s') =
  if Re.tag_here c s' then String c (Re.take_word s') :: Re.findall (Re.drop_word s')
  else Re.findall s'.
Proof. simp findall. destruct (Re.tag_here c s'); reflexivity. Qed.

Lemma take_drop_word s : Re.take_word s +:+ Re.drop_word s = s.
Proof.
  induction s as [|c s IH]; simpl; [reflexivity|].
  destruct (Char.is_word c); simpl; congruence.
Qed.

Lemma all_word_take_word s : all_word (Re.take_word s).
Proof.
  induction s as [|c s IH]; simpl; [exact I|].
  destruct (Char.is_word c) eqn:Hc; simpl; auto.
Qed.

Lemma not_word_start_drop_word s : not_word_start (Re.drop_word s).
Proof.
  induction s as [|c s IH]; simpl; [exact I|].
  destruct (Char.is_word c) eqn:Hc; simpl; auto.
Qed.

Lemma take_word_append w rest :
  all_word w -> not_word_start rest -> Re.take_word (w +:+ rest) = w.
Proof.
  intros Hw Hr. induction w as [|c w IH]; simpl in *.
  - destruct rest as [|d rest]; simpl in *; [reflexivity|now rewrite Hr].
  - destruct Hw as [-> Hw]. now rewrite IH.
Qed.

Lemma drop_word_append w rest :
  all_word w -> not_word_start rest -> Re.drop_word (w +:+ rest) = rest.
Proof.
  intros Hw Hr. induction w as [|c w IH]; simpl in *.
  - destruct rest as [|d rest]; simpl in *; [reflexivity|now rewrite Hr].
  - destruct Hw as [-> Hw]. now apply IH.
Qed.

Lemma truthy_true s : PyStr.truthy s = true <-> s <> EmptyString.
Proof.
  unfold PyStr.truthy. rewrite negb_true_iff, String.eqb_neq. reflexivity.
Qed.

Lemma is_hash_true c : Char.is_hash c = true <-> c = Char.hash.
Proof. unfold Char.is_hash. apply Ascii.eqb_eq. Qed.

Lemma hash_not_word c : Char.is_word c = true -> Char.is_hash c = false.
Proof.
  intros Hw. destruct (Char.is_hash c) eqn:Hh; [|reflexivity].
  apply is_hash_true in Hh. subst c. discriminate Hw.
Qed.

(** A token starts at the beginning of [String c s'] exactly when the tag
    pattern matches there, and it is then the text the pattern matches. *)
Lemma tag_here_true c s' :
  Re.tag_here c s' = true <->
  c = Char.hash /\ exists w rest,
    s' = w +:+ rest /\ w <> EmptyString /\ all_word w /\ not_word_start rest.
Proof.
  unfold Re.tag_here. rewrite andb_true_iff, is_hash_true, truthy_true. split.
  - intros [-> Hne]. split; [reflexivity|].
    exists (Re.take_word s'), (Re.drop_word s').
    auto using take_drop_word, all_word_take_word, not_word_start_drop_word.
  - intros [-> (w & rest & -> & Hne & Hw & Hr)]. split; [reflexivity|].
    now rewrite take_word_append.
Qed.

Lemma token_at_is_tag s t : token_at s = Some t -> is_tag t.
Proof.
  destruct s as [|c s']; simpl; [discriminate|].
  destruct (Re.tag_here c s') eqn:Hm; [|discriminate].
  intros [= <-]. unfold Re.tag_here in Hm.
  apply andb_true_iff in Hm as [->%is_hash_true Hne%truthy_true].
  exists (Re.take_word s'). auto using all_word_take_word.
Qed.

Lemma tag_free_nil : tag_free EmptyString.
Proof. intros [|x a] c b Heq; discriminate. Qed.

#[local] Hint Resolve tag_free_nil take_drop_word all_word_take_word
  not_word_start_drop_word : tags.

Lemma tag_free_tail c gap : tag_free (String c gap) -> tag_free gap.
Proof. intros H a d b ->. apply (H (String c a) d b). reflexivity. Qed.

Lemma tag_here_false_first c d b rest :
  Re.tag_here c (String d b +:+ rest) = false -> c = Char.hash ->
  Char.is_word d = false.
Proof.
  unfold Re.tag_here. intros Hm ->. simpl in Hm.
  destruct (Char.is_word d); [discriminate Hm | reflexivity].
Qed.

(** A character at which the pattern does not match extends the scan of
    the rest of the string. *)
Lemma scans_skip c s ts :
  Re.tag_here c s = false -> scans s ts -> scans (String c s) ts.
Proof.
  intros Hm Hs. destruct Hs as [gap Hfree | gap w rest ts Hfree Hne Hw Hr Hs].
  - apply scans_end. intros [|x a] d b Heq; simpl in Heq.
    + injection Heq as -> ->.
      rewrite <- (append_nil_r (String d b)) in Hm.
      now apply (tag_here_false_first _ _ _ _ Hm).
    + injection Heq as -> ->. now apply (Hfree a d b).
  - change (String c (gap +:+ String Char.hash w +:+ rest))
      with (String c gap +:+ String Char.hash w +:+ rest).
    apply scans_tag; try assumption.
    intros [|x a] d b Heq; simpl in Heq.
    + injection Heq as -> ->. simpl in Hm.
      now apply (tag_here_false_first _ _ _ _ Hm).
    + injection Heq as -> ->. now apply (Hfree a d b).
Qed.

(** [re.findall] lists the tokens as a left-to-right scan finds them. *)
Lemma findall_scans s : scans s (Re.findall s).
Proof.
  funelim (Re.findall s).
  - apply scans_end; auto with tags.
  - rewrite <- (take_drop_word s') at 1.
    apply tag_here_true in Heq as [-> (w & rest & Hs' & Hne & Hw & Hr)].
    change (scans (EmptyString +:+ String Char.hash (Re.take_word s') +:+ Re.drop_word s')
              (String Char.hash (Re.take_word s') :: Re.findall (Re.drop_word s'))).
    apply scans_tag; auto with tags.
    subst s'. now rewrite take_word_append.
  - now apply scans_skip.
Qed.

(** Text that holds no token, followed by the end of the string or by a
    [#], adds nothing to the matches. *)
Lemma findall_gap gap rest :
  tag_free gap ->
  (rest = EmptyString \/ exists r, rest = String Char.hash r) ->
  Re.findall (gap +:+ rest) = Re.findall rest.
Proof.
  intros Hfree Hrest. induction gap as [|c gap IH]; [reflexivity|].
  simpl. rewrite findall_cons.
  assert (Re.tag_here c (gap +:+ rest) = false) as ->.
  { unfold Re.tag_here. destruct (Char.is_hash c) eqn:Hc; [|reflexivity].
    apply is_hash_true in Hc. subst c. simpl.
    destruct gap as [|d b]; simpl.
    - destruct Hrest as [-> | [r ->]]; reflexivity.
    - rewrite (Hfree EmptyString d b eq_refl). reflexivity. }
  apply IH. now apply tag_free_tail in Hfree.
Qed.

(** A left-to-right scan can only produce the list [re.findall] returns. *)
Lemma scans_unique s ts : scans s ts -> ts = Re.findall s.
Proof.
  induction 1 as [gap Hfree | gap w rest ts Hfree Hne Hw Hr Hs IH].
  - rewrite <- (append_nil_r gap), findall_gap by auto. now simp findall.
  - rewrite findall_gap by eauto. simpl. rewrite findall_cons.
    assert (Re.tag_here Char.hash (w +:+ rest) = true) as ->.
    { apply tag_here_true. split; [reflexivity|]. now exists w, rest. }
    rewrite take_word_append, drop_word_append by assumption. now rewrite IH.
Qed.

Lemma occurrences_drop_word t s : occurrences t (Re.drop_word s) = occurrences t s.
Proof.
  induction s as [|c s IH]; [reflexivity|].
  cbn [Re.drop_word]. destruct (Char.is_word c) eqn:Hc; [|reflexivity].
  rewrite IH. cbn [occurrences token_at]. unfold Re.tag_here.
  now rewrite (hash_not_word _ Hc).
Qed.

(** Each token is listed once for every place at which it starts. *)
Lemma findall_count t s :
  count_occ string_dec (Re.findall s) t = occurrences t s.
Proof.
  funelim (Re.findall s).
  - reflexivity.
  - cbn [occurrences token_at count_occ]. rewrite Heq, H, occurrences_drop_word.
    destruct (string_dec _ t); reflexivity.
  - cbn [occurrences token_at]. rewrite Heq. simpl. apply H.
Qed.

Lemma findall_all_tags s : Forall is_tag (Re.findall s).
Proof.
  funelim (Re.findall s); [constructor| |assumption].
  constructor; [|assumption].
  apply (token_at_is_tag (String c s')). simpl. now rewrite Heq.
Qed.

End TagFacts.

Section TagClaims.

(** C1, as the code has it.  The tags of an indexed record are the hashtag
    tokens of the content joined with single spaces, one for every place
    at which a token occurs: a token that occurs several times in the
    content is stored that many times. *)
Theorem tags_list_every_occurrence (path text : string) :
  exists toks : list string,
    MemorySearcher.tags (MemorySearcher.make_record path text)
      = PyStr.join " " toks
    /\ Forall is_tag toks
    /\ forall t, count_occ string_dec toks t = occurrences t text.
Proof.
  exists (Re.findall text). split; [reflexivity|].
  split; [apply findall_all_tags|]. intros t. apply findall_count.
Qed.

(** C1 fails as stated: a token that occurs twice in the content is stored
    twice in the tags of the record. *)
Lemma tags_repeat_counterexample :
  MemorySearcher.tags
    (MemorySearcher.make_record "memory/2026-02-01-notes.md"
       "use #memory, then #memory again")
    = "#memory #memory"
  /\ ~ List.NoDup (PyStr.split Char.space
               (MemorySearcher.tags
                  (MemorySearcher.make_record "memory/2026-02-01-notes.md"
                     "use #memory, then #memory again"))).
Proof.
  assert (MemorySearcher.tags
            (MemorySearcher.make_record "memory/2026-02-01-notes.md"
               "use #memory, then #memory again") = "#memory #memory") as ->
    by (vm_compute; reflexivity).
  split; [reflexivity|].
  change (PyStr.split Char.space "#memory #memory") with ["#memory"; "#memory"].
  intros Hnd. inversion Hnd as [|x l Hnotin _]. apply Hnotin. now left.
Qed.

(** C10. The tags of a record list the hashtag tokens of the content in
    the order in which a left-to-right scan meets them, and that scan has
    one result only, so the same content always gives the same tags. *)
Theorem tags_follow_occurrence_order (path text : string) :
  exists toks : list string,
    scans text toks
    /\ MemorySearcher.tags (MemorySearcher.make_record path text)
         = PyStr.join " " toks
    /\ forall toks', scans text toks' ->
         toks' = toks /\
         PyStr.join " " toks'
           = MemorySearcher.tags (MemorySearcher.make_record path text).
Proof.
  exists (Re.findall text). split; [apply findall_scans|].
  split; [reflexivity|]. intros toks' Hs.
  apply scans_unique in Hs. subst toks'. now split.
Qed.

Example findall_sample :
  Re.findall "Decided to use #memory and #tools today, ##x #y#z # a"
  = ["#memory"; "#tools"; "#x"; "#y"; "#z"].
Proof. vm_compute. reflexivity. Qed.

End TagClaims.

(** ** The summary of a document *)

Section SummaryFacts.

Lemma find_first {A : Type} (f : A -> bool) (l : list A) :
  match List.find f l with
  | Some x => exists before after,
      l = before ++ x :: after /\ Forall (fun y => f y = false) before /\ f x = true
  | None => Forall (fun y => f y = false) l
  end.
Proof.
  induction l as [|y l IH]; simpl; [constructor|].
  destruct (f y) eqn:Hy.
  - exists [], l. repeat split; [constructor | assumption].
  - destruct (List.find f l) as [x|].
    + destruct IH as (before & after & -> & Hb & Hx).
      exists (y :: before), after. repeat split; [constructor|]; assumption.
    + constructor; assumption.
Qed.

Lemma body_line_true l :
  MemorySearcher.body_line l = true <->
  PyStr.strip l <> EmptyString /\ PyStr.startswith l "#" = false.
Proof.
  unfold MemorySearcher.body_line.
  now rewrite andb_true_iff, truthy_true, negb_true_iff.
Qed.

Lemma body_line_false l :
  MemorySearcher.body_line l = false <-> passed_over l.
Proof.
  unfold MemorySearcher.body_line, passed_over.
  rewrite andb_false_iff, negb_false_iff. unfold PyStr.truthy.
  rewrite negb_false_iff, String.eqb_eq. reflexivity.
Qed.

Lemma take_take n s : PyStr.take n (PyStr.take n s) = PyStr.take n s.
Proof. apply take_all. rewrite length_take. lia. Qed.

(** C6, as the code has it.  The summary is taken from the lines of the
    trimmed content: it is the trimmed text of the first line that is
    neither blank nor a heading, cut to its first 200 characters, and
    the first 200 characters of the raw content when there is no such
    line.  When that trimmed text is 250 characters long the summary is
    its prefix of exactly 200 characters. *)
Theorem summary_of_first_body_line (path text : string) :
  ((exists before l after,
      PyStr.split Char.newline (PyStr.strip text) = before ++ l :: after
      /\ Forall passed_over before
      /\ PyStr.strip l <> EmptyString
      /\ PyStr.startswith l "#" = false
      /\ MemorySearcher.summary (MemorySearcher.make_record path text)
           = PyStr.take 200 (PyStr.strip l)
      /\ (String.length (PyStr.strip l) = 250 ->
          String.length
            (MemorySearcher.summary (MemorySearcher.make_record path text)) = 200
          /\ String.prefix
               (MemorySearcher.summary (MemorySearcher.make_record path text))
               (PyStr.strip l) = true))
   \/ (Forall passed_over (PyStr.split Char.newline (PyStr.strip text))
       /\ MemorySearcher.summary (MemorySearcher.make_record path text)
            = PyStr.take 200 text))
  /\ String.length (MemorySearcher.summary (MemorySearcher.make_record path text))
       <= 200
  /\ String.length
       (MemorySearcher.summary (MemorySearcher.make_record "memory/long.md" long_doc))
       = 200.
Proof.
  cbn [MemorySearcher.summary MemorySearcher.make_record].
  split; [|split; [|vm_compute; reflexivity]].
  - unfold MemorySearcher.extract_summary.
    pose proof (find_first MemorySearcher.body_line
                  (PyStr.split Char.newline (PyStr.strip text))) as Hfind.
    destruct (List.find _ _) as [l|].
    + left. destruct Hfind as (before & after & Heq & Hb & [Hne Hh]%body_line_true).
      exists before, l, after. split; [assumption|].
      split; [eapply Forall_impl; [exact Hb|]; intros x; apply body_line_false|].
      repeat split; try assumption.
      * rewrite length_take. lia.
      * apply prefix_take.
    + right. split; [|apply take_take].
      eapply Forall_impl; [exact Hfind|]. intros x; apply body_line_false.
  - unfold MemorySearcher.extract_summary.
    destruct (List.find _ _); rewrite length_take; lia.
Qed.

(** C6 fails as stated.  The second line of [padded_doc] is the first
    line that is neither blank nor a heading, and it is 250 characters
    long, yet the summary is the single letter it holds once trimmed;
    and the first line of [indented_doc] does not start with the heading
    marker, yet the summary is taken from the line after it. *)
Lemma summary_padded_line_counterexample :
  (PyStr.split Char.newline padded_doc = ["# Title"; padded_line; "end"]
   /\ String.length padded_line = 250
   /\ MemorySearcher.body_line padded_line = true
   /\ MemorySearcher.summary
        (MemorySearcher.make_record "memory/padded.md" padded_doc) = "a")
  /\ (PyStr.split Char.newline indented_doc = [" #x"; "foo"]
      /\ PyStr.truthy (PyStr.strip " #x") = true
      /\ PyStr.startswith " #x" "#" = false
      /\ MemorySearcher.summary
           (MemorySearcher.make_record "memory/indented.md" indented_doc) = "foo").
Proof. repeat split; vm_compute; reflexivity. Qed.

End SummaryFacts.

(** ** The timeline *)

Section TimelineFacts.

Import MemorySearcher.

Lemma timeline_fold (l : list string) (acc : list entry) :
  List.fold_left timeline_step l acc = acc ++ List.flat_map dated_entry l.
Proof.
  revert acc; induction l as [|md l IH]; intros acc; simpl.
  - now rewrite app_nil_r.
  - rewrite IH. unfold timeline_step, dated_entry.
    destruct (Re.search Re.date_pattern (PyPath.name md)); simpl;
      [now rewrite <- app_assoc | reflexivity].
Qed.

Lemma insert_permutation p l : Permutation (PyPath.insert p l) (p :: l).
Proof.
  induction l as [|q l IH]; simpl; [reflexivity|].
  destruct (PyPath.leb p q); [reflexivity|].
  rewrite IH. apply perm_swap.
Qed.

Lemma sorted_permutation l : Permutation (PyPath.sorted l) l.
Proof.
  induction l as [|p l IH]; simpl; [reflexivity|].
  rewrite insert_permutation. now constructor.
Qed.

Lemma in_timeline tree around e :
  In e (timeline tree around) <->
  exists f d, In f (glob_md tree)
    /\ Re.search Re.date_pattern (PyPath.name (f_path f)) = Some d
    /\ e = {| e_file := PyPath.name (f_path f); e_date := d; e_path := f_path f |}.
Proof.
  unfold timeline. rewrite timeline_fold. simpl. rewrite in_flat_map. split.
  - intros (md & Hin & He).
    apply (Permutation_in _ (sorted_permutation _)) in Hin.
    apply in_map_iff in Hin as (f & <- & Hf). exists f.
    unfold dated_entry in He.
    destruct (Re.search Re.date_pattern (PyPath.name (f_path f))) as [d|];
      [|contradiction].
    exists d. destruct He as [<- | []]. auto.
  - intros (f & d & Hf & Hd & ->). exists (f_path f). split.
    + apply (Permutation_in _ (Permutation_sym (sorted_permutation _))).
      now apply in_map.
    + unfold dated_entry. rewrite Hd. now left.
Qed.

Lemma search_date_shape name d :
  Re.search Re.date_pattern name = Some d -> date_shape d.
Proof.
  intros H. pose proof (search_leftmost Re.date_pattern name) as Hs.
  rewrite H in Hs. destruct Hs as (_ & _ & Hsh & _). now apply date_shape_iff.
Qed.

Lemma extract_date_unknown name :
  extract_date name = "unknown" <-> Re.search Re.date_pattern name = None.
Proof.
  unfold extract_date.
  destruct (Re.search Re.date_pattern name) as [d|] eqn:Hs; [|tauto].
  split; [|discriminate]. intros ->.
  now destruct (date_shape_not_unknown _ (search_date_shape _ _ Hs)).
Qed.

(** C2, as the code has it.  A document file whose name holds a date has
    an entry in the timeline, with that date; a document file whose name
    holds none has no entry, and no entry of the timeline has the date
    [unknown]. *)
Theorem timeline_lists_dated_files
    (tree : list file) (around : option string) (f : file) :
  In f (glob_md tree) ->
  (extract_date (PyPath.name (f_path f)) <> "unknown" ->
     In {| e_file := PyPath.name (f_path f);
           e_date := extract_date (PyPath.name (f_path f));
           e_path := f_path f |} (timeline tree around))
  /\ (extract_date (PyPath.name (f_path f)) = "unknown" ->
      forall e, In e (timeline tree around) -> e_path e <> f_path f)
  /\ (forall e, In e (timeline tree around) -> e_date e <> "unknown").
Proof.
  intros Hf. repeat split.
  - intros Hd. apply in_timeline. exists f.
    unfold extract_date in *.
    destruct (Re.search Re.date_pattern (PyPath.name (f_path f))) as [d|];
      [|contradiction].
    exists d. auto.
  - intros Hd e (g & d & Hg & Hs & ->)%in_timeline Hpath. simpl in Hpath.
    apply extract_date_unknown in Hd. congruence.
  - intros e (g & d & Hg & Hs & ->)%in_timeline. simpl.
    apply date_shape_not_unknown. eapply search_date_shape; eassumption.
Qed.

Lemma timeline_lists_dated_files_witness :
  In sample_undated (glob_md sample_tree)
  /\ extract_date (PyPath.name (f_path sample_undated)) = "unknown"
  /\ forall e, In e (timeline sample_tree None) -> e_path e <> f_path sample_undated.
Proof.
  assert (Hin : In sample_undated (glob_md sample_tree)) by (vm_compute; auto).
  split; [exact Hin|]. split; [vm_compute; reflexivity|].
  apply (timeline_lists_dated_files sample_tree None sample_undated Hin).
  vm_compute; reflexivity.
Defined.

(** C2 fails as stated: [notes.md] is a document file of [sample_tree],
    and the timeline of that tree has one entry, for the other file. *)
Lemma timeline_undated_counterexample :
  glob_md sample_tree = [sample_undated; sample_dated]
  /\ timeline sample_tree None
     = [{| e_file := "2026-02-01-notes.md"; e_date := "2026-02-01";
           e_path := "memory/2026-02-01-notes.md" |}].
Proof. split; vm_compute; reflexivity. Qed.

(** C9. The date handed to [timeline] changes neither the list it
    returns nor what the [timeline] command prints. *)
Theorem timeline_ignores_date
    (tree : list file) (d1 d2 : option string) :
  timeline tree d1 = timeline tree d2
  /\ forall json : bool, main_timeline tree d1 json = main_timeline tree d2 json.
Proof.
  assert (H : timeline tree d1 = timeline tree d2) by reflexivity.
  split; [exact H|]. intros json. unfold main_timeline. now rewrite H.
Qed.

(** Files named after three dates come out in the order of the dates,
    whatever the order in which the traversal meets them. *)
Example timeline_sample_order :
  List.map e_date
    (timeline [ {| f_path := "memory/2026-01-01-a.md"; f_data := Some "a" |};
                {| f_path := "memory/2026-03-01-c.md"; f_data := Some "c" |};
                {| f_path := "memory/2026-02-01-b.md"; f_data := None |} ] None)
  = ["2026-01-01"; "2026-02-01"; "2026-03-01"].
Proof. vm_compute. reflexivity. Qed.

End TimelineFacts.

(** ** The rebuild of the index *)

Section IndexFacts.

Import MemorySearcher.

Lemma index_fold (l : list file) (st : index_state) :
  List.fold_left index_file l st =
  {| table := table st ++ List.flat_map row_of l;
     indexed := indexed st + List.length (List.flat_map row_of l);
     warned := warned st ++ List.flat_map warning_of l |}.
Proof.
  revert st; induction l as [|f l IH]; intros [t n w]; simpl.
  - now rewrite !app_nil_r, Nat.add_0_r.
  - rewrite IH. unfold index_file, row_of, warning_of, hidden.
    destruct (PyStr.startswith (PyPath.name (f_path f)) "."); simpl;
      [reflexivity|].
    destruct (f_data f) as [text|]; simpl;
      rewrite <- ?app_assoc; simpl; f_equal; lia.
Qed.

Lemma index_table tree db :
  table (index_memory_files tree db) = List.flat_map row_of (glob_md tree).
Proof. unfold index_memory_files. now rewrite index_fold. Qed.

Lemma in_row_of r f :
  In r (row_of f) <->
  hidden f = false /\ exists text, f_data f = Some text /\ r = make_record (f_path f) text.
Proof.
  unfold row_of. destruct (hidden f); [split; [intros []|intros [[=] _]]|].
  destruct (f_data f) as [text|]; simpl.
  - split.
    + intros [<- | []]. eauto.
    + intros [_ (text' & [= <-] & ->)]. now left.
  - split; [intros [] | intros [_ (text' & [=] & _)]].
Qed.

Lemma in_glob_md f tree : In f (glob_md tree) <-> In f tree /\ is_document f = true.
Proof. apply filter_In. Qed.

Lemma in_index_table tree db r :
  In r (table (index_memory_files tree db)) <->
  exists f text, In f tree /\ is_document f = true /\ hidden f = false
    /\ f_data f = Some text /\ r = make_record (f_path f) text.
Proof.
  rewrite index_table, in_flat_map. split.
  - intros (f & [Hf Hdoc]%in_glob_md & [Hh (text & Hd & ->)]%in_row_of).
    exists f, text. auto.
  - intros (f & text & Hf & Hdoc & Hh & Hd & ->). exists f.
    split; [now apply in_glob_md|]. apply in_row_of. eauto.
Qed.

Lemma rows_at_app p t u : rows_at p (t ++ u) = rows_at p t + rows_at p u.
Proof. unfold rows_at. now rewrite List.filter_app, List.length_app. Qed.

Lemma rows_at_none p l :
  ~ In p (List.map f_path l) -> rows_at p (List.flat_map row_of l) = 0.
Proof.
  induction l as [|f l IH]; intros Hp; [reflexivity|].
  simpl in *. rewrite rows_at_app, IH by tauto.
  assert (f_path f <> p) as Hne by tauto.
  unfold row_of. destruct (hidden f); [reflexivity|].
  destruct (f_data f); [|reflexivity].
  unfold rows_at. simpl. now apply String.eqb_neq in Hne as ->.
Qed.

(** Under distinct paths, a file that gets a row gets one row. *)
Lemma rows_at_one f text l :
  List.NoDup (List.map f_path l) -> In f l -> hidden f = false ->
  f_data f = Some text ->
  rows_at (f_path f) (List.flat_map row_of l) = 1.
Proof.
  intros Hnd Hin Hh Hd. induction l as [|g l IH]; [destruct Hin|].
  simpl in *. inversion_clear Hnd as [|? ? Hg Hl]. rewrite rows_at_app.
  destruct Hin as [-> | Hin].
  - rewrite (rows_at_none _ _ Hg). unfold row_of. rewrite Hh, Hd.
    unfold rows_at. simpl. now rewrite String.eqb_refl.
  - rewrite (IH Hl Hin).
    assert (f_path g <> f_path f) as Hne
      by (intros Heq; apply Hg; rewrite Heq; now apply in_map).
    unfold row_of. destruct (hidden g); [reflexivity|].
    destruct (f_data g); [|reflexivity].
    unfold rows_at. simpl. now apply String.eqb_neq in Hne as ->.
Qed.

Lemma NoDup_filter_paths (g : file -> bool) l :
  List.NoDup (List.map f_path l) -> List.NoDup (List.map f_path (List.filter g l)).
Proof.
  induction l as [|f l IH]; simpl; [trivial|].
  intros Hnd. inversion_clear Hnd as [|? ? Hf Hl].
  destruct (g f); simpl; [|auto]. constructor; [|auto].
  intros (x & Hx & [Hin _]%filter_In)%in_map_iff. apply Hf.
  rewrite <- Hx. now apply in_map.
Qed.

Lemma filter_permutation {A : Type} (g : A -> bool) l l' :
  Permutation l l' -> Permutation (List.filter g l) (List.filter g l').
Proof.
  induction 1 as [|x l l' _ IH|x y l|l l' l'' _ IH1 _ IH2]; simpl.
  - reflexivity.
  - destruct (g x); [now constructor | assumption].
  - destruct (g x), (g y); try reflexivity. apply perm_swap.
  - now rewrite IH1.
Qed.

Lemma flat_map_permutation {A B : Type} (g : A -> list B) l l' :
  Permutation l l' -> Permutation (List.flat_map g l) (List.flat_map g l').
Proof.
  induction 1 as [|x l l' _ IH|x y l|l l' l'' _ IH1 _ IH2]; simpl.
  - reflexivity.
  - now apply Permutation_app_head.
  - rewrite !app_assoc. apply Permutation_app_tail, Permutation_app_comm.
  - now rewrite IH1.
Qed.

End IndexFacts.

Section IndexClaims.

Import MemorySearcher.

Lemma path_determines_file l f g :
  List.NoDup (List.map f_path l) -> In f l -> In g l ->
  f_path f = f_path g -> f = g.
Proof.
  induction l as [|h l IH]; intros Hnd Hf Hg Heq; [destruct Hf|].
  simpl in Hnd. inversion_clear Hnd as [|? ? Hh Hl].
  destruct Hf as [-> | Hf], Hg as [-> | Hg]; auto.
  - destruct Hh. rewrite Heq. now apply in_map.
  - destruct Hh. rewrite <- Heq. now apply in_map.
Qed.

(** Under distinct paths, a file that gets no row leaves no row under
    its path. *)
Lemma rows_at_zero f l :
  List.NoDup (List.map f_path l) -> In f l -> row_of f = [] ->
  rows_at (f_path f) (List.flat_map row_of l) = 0.
Proof.
  intros Hnd Hin Hrow. induction l as [|g l IH]; [destruct Hin|].
  simpl in *. inversion_clear Hnd as [|? ? Hg Hl]. rewrite rows_at_app.
  destruct Hin as [-> | Hin].
  - now rewrite (rows_at_none _ _ Hg), Hrow.
  - rewrite (IH Hl Hin).
    assert (f_path g <> f_path f) as Hne
      by (intros Heq; apply Hg; rewrite Heq; now apply in_map).
    unfold row_of. destruct (hidden g); [reflexivity|].
    destruct (f_data g); [|reflexivity].
    unfold rows_at. simpl. now apply String.eqb_neq in Hne as ->.
Qed.

Lemma in_warned tree db p :
  In p (warned (index_memory_files tree db)) <->
  exists f, In f tree /\ is_document f = true /\ hidden f = false
    /\ f_data f = None /\ p = f_path f.
Proof.
  unfold index_memory_files. rewrite index_fold. simpl. rewrite in_flat_map.
  split.
  - intros (f & [Hf Hdoc]%in_glob_md & Hw). exists f.
    unfold warning_of in Hw. destruct (hidden f); [destruct Hw|].
    destruct (f_data f); [destruct Hw|]. destruct Hw as [<- | []]. auto.
  - intros (f & Hf & Hdoc & Hh & Hd & ->). exists f.
    split; [now apply in_glob_md|]. unfold warning_of. rewrite Hh, Hd. now left.
Qed.

(** C4. After a rebuild over a tree of files with distinct paths, the
    table holds, for each readable document file that is not hidden, one
    row under its path, built from its whole text; it holds no other
    row, so none under the path of an unreadable, hidden or other file;
    each unreadable document file is warned about, and the count of
    indexed files is the number of rows. *)
Theorem rebuild_one_record_per_readable_file
    (tree : list file) (db : list record) :
  List.NoDup (List.map f_path tree) ->
  (forall f text,
      In f tree -> is_document f = true -> hidden f = false ->
      f_data f = Some text ->
      In (make_record (f_path f) text) (table (index_memory_files tree db))
      /\ rows_at (f_path f) (table (index_memory_files tree db)) = 1)
  /\ (forall r,
        In r (table (index_memory_files tree db)) ->
        exists f text,
          In f tree /\ is_document f = true /\ hidden f = false
          /\ f_data f = Some text /\ r = make_record (f_path f) text)
  /\ (forall f,
        In f tree ->
        is_document f = false \/ hidden f = true \/ f_data f = None ->
        rows_at (f_path f) (table (index_memory_files tree db)) = 0)
  /\ (forall f,
        In f tree -> is_document f = true -> hidden f = false ->
        f_data f = None ->
        In (f_path f) (warned (index_memory_files tree db)))
  /\ indexed (index_memory_files tree db)
     = List.length (table (index_memory_files tree db)).
Proof.
  intros Hnd.
  pose proof (NoDup_filter_paths is_document tree Hnd) as Hglob.
  fold (glob_md tree) in Hglob.
  split; [|split; [|split; [|split]]].
  - intros f text Hf Hdoc Hh Hd. split.
    + apply in_index_table. exists f, text. auto.
    + rewrite index_table. apply (rows_at_one f text); auto.
      now apply in_glob_md.
  - intros r Hr. now apply in_index_table in Hr.
  - intros f Hf Hno. rewrite index_table.
    destruct (is_document f) eqn:Hdoc.
    + apply rows_at_zero; [assumption | now apply in_glob_md |].
      unfold row_of. destruct Hno as [Hno | [-> | Hno]];
        [discriminate | reflexivity |].
      rewrite Hno. now destruct (hidden f).
    + apply rows_at_none.
      intros (g & Heq & [Hg Hgdoc]%in_glob_md)%in_map_iff.
      assert (g = f) by (now apply (path_determines_file tree)).
      congruence.
  - intros f Hf Hdoc Hh Hd. apply in_warned. exists f. auto.
  - unfold index_memory_files. rewrite index_fold. simpl. reflexivity.
Qed.

Lemma rebuild_one_record_per_readable_file_witness :
  rows_at (f_path sample_dated) (table (index_memory_files sample_root [])) = 1
  /\ rows_at (f_path sample_unreadable) (table (index_memory_files sample_root [])) = 0
  /\ In (f_path sample_unreadable) (warned (index_memory_files sample_root []))
  /\ indexed (index_memory_files sample_root []) = 2.
Proof.
  assert (Hnd : List.NoDup (List.map f_path sample_root))
    by (repeat (constructor; [simpl; intuition discriminate|]); constructor).
  destruct (rebuild_one_record_per_readable_file sample_root [] Hnd)
    as (Hone & _ & Hzero & Hwarn & Hcount).
  split; [|split; [|split]].
  - apply (Hone sample_dated "# notes"); vm_compute; auto 10.
  - apply (Hzero sample_unreadable); vm_compute; auto 10.
  - apply (Hwarn sample_unreadable); vm_compute; auto 10.
  - rewrite Hcount. vm_compute. reflexivity.
Defined.

(** C7. A second rebuild over the same tree leaves the table, the count
    and the warnings of the first; nothing of the first table is kept, so
    the two tables have the same rows the same number of times, also
    when the second traversal meets the files in another order. *)
Theorem rebuild_twice_same_records (tree : list file) (db : list record) :
  index_memory_files tree (table (index_memory_files tree db))
    = index_memory_files tree db
  /\ (forall tree', Permutation tree tree' ->
        Permutation
          (table (index_memory_files tree db))
          (table (index_memory_files tree'
                    (table (index_memory_files tree db))))
        /\ forall p,
             rows_at p (table (index_memory_files tree'
                                 (table (index_memory_files tree db))))
             = rows_at p (table (index_memory_files tree db))).
Proof.
  split; [reflexivity|]. intros tree' Hperm.
  assert (Permutation (table (index_memory_files tree db))
            (table (index_memory_files tree'
                      (table (index_memory_files tree db))))) as Htab.
  { rewrite !index_table. apply flat_map_permutation.
    now apply filter_permutation. }
  split; [exact Htab|]. intros p. unfold rows_at.
  apply Permutation_length, filter_permutation. now symmetry.
Qed.

Example index_sample_root :
  index_memory_files sample_root (table (index_memory_files sample_tree []))
  = {| table :=
         [ {| file_path := "memory/notes.md"; content := "hello";
              date_created := "unknown"; tags := ""; summary := "hello" |};
           {| file_path := "memory/2026-02-01-notes.md"; content := "# notes";
              date_created := "2026-02-01"; tags := ""; summary := "# notes" |} ];
       indexed := 2;
       warned := ["memory/2026-03-05-broken.md"] |}.
Proof. vm_compute. reflexivity. Qed.

End IndexClaims.

(** ** Reading the content of paths *)

Section ContentFacts.

Import MemorySearcher.

(** Reading stops at the first path that cannot be read, whatever was
    collected before it. *)
Lemma get_content_from_fails fs acc before p after :
  Forall (fun q => is_Some (fs !! q)) before -> fs !! p = None ->
  get_content_from fs acc (before ++ p :: after) = inl (OpenFailed p).
Proof.
  intros Hb Hp. revert acc.
  induction Hb as [|q before [text Hq] _ IH]; intros acc; simpl.
  - now rewrite Hp.
  - rewrite Hq. apply IH.
Qed.

(** When every path can be read, the result holds under each name the
    text of the last path of that name, and keeps the other names of
    [acc]. *)
Lemma get_content_from_ok fs paths :
  Forall (fun q => is_Some (fs !! q)) paths ->
  forall acc, exists d,
    get_content_from fs acc paths = inr d
    /\ (forall before p after,
          paths = before ++ p :: after ->
          (forall q, In q after -> PyPath.name q <> PyPath.name p) ->
          d !! PyPath.name p = fs !! p)
    /\ (forall k, (forall p, In p paths -> PyPath.name p <> k) ->
          d !! k = acc !! k).
Proof.
  induction 1 as [|q paths [text Hq] _ IH]; intros acc; simpl.
  - exists acc. split; [reflexivity|]. split; [|reflexivity].
    intros [|? ?] ? ? [=].
  - rewrite Hq.
    destruct (IH (<[PyPath.name q := text]> acc)) as (d & Hd & Hlast & Hother).
    exists d. split; [exact Hd|]. split.
    + intros [|x before] p after Heq Hafter; simpl in Heq.
      * injection Heq as -> ->.
        rewrite Hother by (intros r Hr Hname; now apply (Hafter r)).
        now rewrite lookup_insert_eq.
      * injection Heq as -> ->. now apply (Hlast before p after).
    + intros k Hk. rewrite Hother by (intros r Hr; apply Hk; now right).
      apply lookup_insert_ne. apply Hk. now left.
Qed.

(** C3, as the code has it.  When every path of the list can be read,
    [get_content] returns the texts under the names of the paths, the
    last path of a name giving its text, and nothing under any other
    name.  When some path cannot be read, the call raises at the first
    such path and returns no text at all. *)
Theorem get_content_all_or_nothing
    (fs : gmap string string) (paths : list string) :
  (Forall (fun q => is_Some (fs !! q)) paths ->
     exists d,
       get_content fs paths = inr d
       /\ (forall before p after,
             paths = before ++ p :: after ->
             (forall q, In q after -> PyPath.name q <> PyPath.name p) ->
             d !! PyPath.name p = fs !! p)
       /\ (forall k, (forall p, In p paths -> PyPath.name p <> k) ->
             d !! k = None))
  /\ (forall before p after,
        paths = before ++ p :: after ->
        Forall (fun q => is_Some (fs !! q)) before -> fs !! p = None ->
        get_content fs paths = inl (OpenFailed p)).
Proof.
  split.
  - intros Hall. unfold get_content.
    destruct (get_content_from_ok fs paths Hall ∅) as (d & Hd & Hlast & Hother).
    exists d. split; [exact Hd|]. split; [exact Hlast|].
    intros k Hk. rewrite (Hother k Hk). apply lookup_empty.
  - intros before p after -> Hb Hp. now apply get_content_from_fails.
Qed.

(** C3 fails as stated: the first path of the batch can be read, the
    second does not exist, and the call returns no text, only the
    exception of the second path. *)
Lemma get_content_batch_counterexample :
  sample_fs !! "memory/a.md" = Some "hello world"
  /\ sample_fs !! "memory/missing.md" = None
  /\ get_content sample_fs ["memory/a.md"; "memory/missing.md"]
     = inl (OpenFailed "memory/missing.md").
Proof. repeat split; vm_compute; reflexivity. Qed.

End ContentFacts.

(** ** Searching *)

Section SearchFacts.

Import MemorySearcher.

Variable fts5_match : list record -> string -> nat -> option (list hit).

(** [search] raises exactly when the full-text query raises, and returns
    one element for each row of the query otherwise, in the order of the
    rows, each file named by the last component of its path. *)
Lemma search_follows_engine db query limit :
  (search fts5_match db query limit = None <-> fts5_match db query limit = None)
  /\ forall rows, fts5_match db query limit = Some rows ->
       search fts5_match db query limit = Some (List.map found_of_hit rows)
       /\ List.map r_path (List.map found_of_hit rows) = List.map h_file_path rows.
Proof.
  unfold search. destruct (fts5_match db query limit) as [rows|].
  - split; [split; discriminate|]. intros ? [= <-]. split; [reflexivity|].
    rewrite List.map_map. reflexivity.
  - split; [tauto | discriminate].
Qed.

End SearchFacts.

(** ** The order of paths *)

Section PathOrder.

Import MemorySearcher.

Lemma string_compare_refl x : String.compare x x = Eq.
Proof.
  destruct (String.compare x x) eqn:Hc; [reflexivity| |];
    pose proof (String.compare_antisym x x) as Ha; rewrite Hc in Ha;
    discriminate Ha.
Qed.

Lemma string_compare_lt_gt x y :
  String.compare x y = Lt <-> String.compare y x = Gt.
Proof.
  rewrite (String.compare_antisym y x).
  destruct (String.compare x y); simpl; split; congruence.
Qed.

Lemma string_compare_lt_leb x y : String.compare x y = Lt -> String.leb x y = true.
Proof. unfold String.leb. now intros ->. Qed.

Lemma string_compare_lt_trans x y z :
  String.compare x y = Lt -> String.compare y z = Lt -> String.compare x z = Lt.
Proof.
  intros Hxy Hyz.
  assert (String.le x z) as Hle.
  { transitivity y; apply Is_true_true; now apply string_compare_lt_leb. }
  apply Is_true_true in Hle. unfold String.leb in Hle.
  destruct (String.compare x z) eqn:Hxz; [|reflexivity|discriminate Hle].
  apply String.compare_eq_iff in Hxz. subst z.
  apply string_compare_lt_gt in Hxy. congruence.
Qed.

Lemma parts_leb_total a b :
  PyPath.parts_leb a b = true \/ PyPath.parts_leb b a = true.
Proof.
  revert b; induction a as [|x a IH]; intros [|y b]; simpl; auto.
  rewrite (String.compare_antisym y x).
  destruct (String.compare x y); simpl; auto.
Qed.

Lemma parts_leb_trans a b c :
  PyPath.parts_leb a b = true -> PyPath.parts_leb b c = true ->
  PyPath.parts_leb a c = true.
Proof.
  revert b c; induction a as [|x a IH]; intros [|y b] [|z c]; simpl; auto;
    try discriminate.
  destruct (String.compare x y) eqn:Hxy; try discriminate.
  - apply String.compare_eq_iff in Hxy. subst y.
    destruct (String.compare x z); auto. apply IH.
  - destruct (String.compare y z) eqn:Hyz; try discriminate.
    + apply String.compare_eq_iff in Hyz. subst z. now rewrite Hxy.
    + now rewrite (string_compare_lt_trans _ _ _ Hxy Hyz).
Qed.

Lemma parts_leb_antisym a b :
  PyPath.parts_leb a b = true -> PyPath.parts_leb b a = true -> a = b.
Proof.
  revert b; induction a as [|x a IH]; intros [|y b]; simpl; auto;
    try discriminate.
  rewrite (String.compare_antisym y x).
  destruct (String.compare x y) eqn:Hxy; simpl; try discriminate.
  apply String.compare_eq_iff in Hxy. subst y. intros H1 H2. f_equal. auto.
Qed.

#[local] Instance path_le_total : Total path_le.
Proof. intros p q. apply parts_leb_total. Qed.

#[local] Instance path_le_trans : Transitive path_le.
Proof. intros p q r. apply parts_leb_trans. Qed.

#[local] Instance path_le_antisym : AntiSymm (=) path_le.
Proof.
  intros p q Hpq Hqp.
  rewrite <- (join_split Char.slash p), <- (join_split Char.slash q).
  f_equal. now apply parts_leb_antisym.
Qed.

#[local] Instance entry_le_trans : Transitive entry_le.
Proof. intros a b c. apply path_le_trans. Qed.

Lemma insert_sorted p l :
  Sorted path_le l -> Sorted path_le (PyPath.insert p l).
Proof.
  induction 1 as [|q l Hl IH Hq]; simpl; [repeat constructor|].
  destruct (PyPath.leb p q) eqn:Hpq.
  - repeat constructor; assumption.
  - constructor; [assumption|].
    assert (path_le q p) as Hqp
      by (destruct (path_le_total p q) as [H|H]; [unfold path_le in H; congruence|exact H]).
    destruct Hq as [|r l Hqr]; simpl; [now constructor|].
    destruct (PyPath.leb p r); now constructor.
Qed.

(** [sorted] returns its argument in the order of paths. *)
Lemma sorted_sorted l : Sorted path_le (PyPath.sorted l).
Proof.
  induction l as [|p l IH]; simpl; [constructor | now apply insert_sorted].
Qed.

(** The result of [sorted] does not depend on the order of its argument. *)
Lemma sorted_of_permutation l l' :
  Permutation l l' -> PyPath.sorted l = PyPath.sorted l'.
Proof.
  intros Hp. apply (Sorted_unique path_le); auto using sorted_sorted.
  now rewrite !sorted_permutation.
Qed.

Lemma dated_entry_path md e : In e (dated_entry md) -> e_path e = md.
Proof.
  unfold dated_entry.
  destruct (Re.search Re.date_pattern (PyPath.name md)); [|intros []].
  now intros [<- | []].
Qed.

Lemma dated_entries_sorted l :
  StronglySorted path_le l ->
  StronglySorted entry_le (List.flat_map dated_entry l).
Proof.
  induction 1 as [|md l Hl IH Hmd]; simpl; [constructor|].
  apply StronglySorted_app_2; [| |exact IH].
  - intros a b Ha%list_elem_of_In Hb%list_elem_of_In.
    apply in_flat_map in Hb as (q & Hq & Hb).
    unfold entry_le.
    rewrite (dated_entry_path _ _ Ha), (dated_entry_path _ _ Hb).
    rewrite Forall_forall in Hmd. now apply Hmd, list_elem_of_In.
  - unfold dated_entry.
    destruct (Re.search Re.date_pattern (PyPath.name md)); repeat constructor.
Qed.

Lemma timeline_in_path_order_aux (tree : list file) (around : option string) :
  StronglySorted entry_le (timeline tree around).
Proof.
  unfold timeline. rewrite timeline_fold. simpl.
  apply dated_entries_sorted, Sorted_StronglySorted; [apply _|].
  apply sorted_sorted.
Qed.

(** X1. The entries of the timeline come in the order of their paths:
    each entry is at or before every later one, whatever the order in
    which the traversal met the files. *)
Theorem timeline_in_path_order (tree : list file) (around : option string) :
  StronglySorted entry_le (timeline tree around)
  /\ forall before a after b rest,
       timeline tree around = before ++ a :: after ++ b :: rest ->
       PyPath.leb (e_path a) (e_path b) = true.
Proof.
  pose proof (timeline_in_path_order_aux tree around) as Hs.
  split; [exact Hs|]. intros before a after b rest Heq. rewrite Heq in Hs.
  apply StronglySorted_app_1_r, StronglySorted_inv in Hs as [_ Hall].
  rewrite Forall_forall in Hall. apply Hall.
  apply list_elem_of_In, in_or_app. right. now left.
Qed.

(** X2. The timeline does not depend on the order in which the traversal
    of the directory yields the files. *)
Theorem timeline_of_permuted_tree
    (tree tree' : list file) (d d' : option string) :
  Permutation tree tree' -> timeline tree d = timeline tree' d'.
Proof.
  intros Hp. unfold timeline. f_equal.
  apply sorted_of_permutation, Permutation_map.
  now apply filter_permutation.
Qed.

Lemma timeline_of_permuted_tree_witness :
  timeline [sample_undated; sample_dated; sample_hidden] None
  = timeline [sample_hidden; sample_dated; sample_undated] (Some "2026-02-01").
Proof.
  apply (timeline_of_permuted_tree
           [sample_undated; sample_dated; sample_hidden]
           [sample_hidden; sample_dated; sample_undated]).
  apply (Permutation_rev [sample_undated; sample_dated; sample_hidden]).
Defined.

(** X3. Without [--json] the [timeline] command prints the lines of the
    entries that come last in the order of paths, ten of them or all when
    there are fewer: no entry left out comes after a printed one. *)
Theorem timeline_text_prints_last_ten
    (tree : list file) (date : option string) :
  exists omitted shown,
    timeline tree date = omitted ++ shown
    /\ List.length shown = Nat.min 10 (List.length (timeline tree date))
    /\ main_timeline tree date false
       = Text (PyStr.join (String Char.newline EmptyString)
                 (List.map timeline_line shown))
    /\ forall a b, In a omitted -> In b shown -> entry_le a b.
Proof.
  pose proof (timeline_in_path_order_aux tree date) as Hs.
  exists (List.firstn (List.length (timeline tree date) - 10) (timeline tree date)),
         (last_ten (timeline tree date)).
  unfold last_ten. split; [now rewrite List.firstn_skipn|].
  split; [rewrite List.length_skipn; lia|]. split; [reflexivity|].
  intros a b Ha Hb.
  rewrite <- (List.firstn_skipn (List.length (timeline tree date) - 10)
                (timeline tree date)) in Hs.
  apply (StronglySorted_app_1_elem_of _ _ _ a b Hs); now apply list_elem_of_In.
Qed.

End PathOrder.

(** ** What the timeline lists and the index leaves out *)

Section TimelineAndIndex.

Import MemorySearcher.

Lemma last_default_or_in {A : Type} (l : list A) (d : A) :
  List.last l d = d \/ In (List.last l d) l.
Proof.
  induction l as [|x [|y l] IH]; simpl in *; auto.
  destruct IH as [-> | [H | H]]; auto.
Qed.

(** The name of a path holds no slash. *)
Lemma name_free_of_slash p : free_of Char.slash (PyPath.name p).
Proof.
  intros a b. unfold PyPath.name.
  destruct (last_default_or_in (PyPath.parts p) EmptyString) as [-> | Hin].
  - now destruct a.
  - apply filter_In in Hin as [Hin _]. now apply split_pieces with (s := p).
Qed.

(** X4. Every entry of the timeline names its file by the last component
    of its path, a name without a slash that ends in [.md]; its date has
    the shape of a date and is a part of that name. *)
Theorem timeline_entry_fields
    (tree : list file) (around : option string) (e : entry) :
  In e (timeline tree around) ->
  e_file e = PyPath.name (e_path e)
  /\ free_of Char.slash (e_file e)
  /\ PyStr.endswith (e_file e) ".md" = true
  /\ date_shape (e_date e)
  /\ exists pre, occurs_at pre (e_date e) (e_file e).
Proof.
  intros (f & d & [Hf Hdoc]%in_glob_md & Hs & ->)%in_timeline. simpl.
  split; [reflexivity|]. split; [apply name_free_of_slash|].
  split; [exact Hdoc|]. split; [eapply search_date_shape; eassumption|].
  pose proof (search_leftmost Re.date_pattern (PyPath.name (f_path f))) as Hl.
  rewrite Hs in Hl. destruct Hl as (pre & Hocc & _). now exists pre.
Qed.

Lemma timeline_entry_fields_witness :
  e_file {| e_file := "2026-02-01-notes.md"; e_date := "2026-02-01";
            e_path := "memory/2026-02-01-notes.md" |}
  = PyPath.name "memory/2026-02-01-notes.md"
  /\ date_shape "2026-02-01".
Proof.
  destruct (timeline_entry_fields sample_tree None
              {| e_file := "2026-02-01-notes.md"; e_date := "2026-02-01";
                 e_path := "memory/2026-02-01-notes.md" |})
    as (Hname & _ & _ & Hshape & _).
  - vm_compute. auto.
  - split; [exact Hname | exact Hshape].
Defined.

(** X5. A document file whose name holds a date is listed by the timeline
    also when it is hidden or cannot be read, while the rebuild of the
    index gives such a file no row. *)
Theorem timeline_lists_what_index_skips
    (tree : list file) (db : list record) (around : option string) (f : file) :
  List.NoDup (List.map f_path tree) ->
  In f tree -> is_document f = true ->
  extract_date (PyPath.name (f_path f)) <> "unknown" ->
  hidden f = true \/ f_data f = None ->
  In {| e_file := PyPath.name (f_path f);
        e_date := extract_date (PyPath.name (f_path f));
        e_path := f_path f |} (timeline tree around)
  /\ rows_at (f_path f) (table (index_memory_files tree db)) = 0.
Proof.
  intros Hnd Hf Hdoc Hdate Hskip. split.
  - apply in_timeline. exists f. unfold extract_date in *.
    destruct (Re.search Re.date_pattern (PyPath.name (f_path f))) as [d|];
      [|contradiction].
    exists d. split; [now apply in_glob_md | auto].
  - rewrite index_table. apply rows_at_zero.
    + apply (NoDup_filter_paths is_document tree Hnd).
    + now apply in_glob_md.
    + unfold row_of. destruct Hskip as [-> | ->]; [reflexivity|].
      now destruct (hidden f).
Qed.

Lemma timeline_lists_what_index_skips_witness :
  In {| e_file := ".2026-03-06-draft.md"; e_date := "2026-03-06";
        e_path := "memory/.2026-03-06-draft.md" |} (timeline sample_root None)
  /\ rows_at "memory/.2026-03-06-draft.md"
       (table (index_memory_files sample_root [])) = 0.
Proof.
  assert (Hnd : List.NoDup (List.map f_path sample_root))
    by (repeat (constructor; [simpl; intuition discriminate|]); constructor).
  apply (timeline_lists_what_index_skips sample_root [] None sample_hidden Hnd).
  - vm_compute. auto 10.
  - vm_compute. reflexivity.
  - vm_compute. discriminate.
  - left. vm_compute. reflexivity.
Defined.

Lemma index_counts l :
  List.length (List.flat_map row_of l) + List.length (List.flat_map warning_of l)
  = List.length (List.filter (fun f => negb (hidden f)) l).
Proof.
  induction l as [|f l IH]; simpl; [reflexivity|].
  rewrite !List.length_app. unfold row_of, warning_of in *.
  destruct (hidden f); simpl; [lia|].
  destruct (f_data f); simpl; lia.
Qed.

(** X6. Every document file that is not hidden is either counted as
    indexed or warned about: the count the rebuild reports and the number
    of its warnings add up to the number of such files, and under distinct
    paths a file that was warned about has no row. *)
Theorem rebuild_counts_or_warns (tree : list file) (db : list record) :
  indexed (index_memory_files tree db)
    + List.length (warned (index_memory_files tree db))
  = List.length (List.filter (fun f => negb (hidden f)) (glob_md tree))
  /\ (List.NoDup (List.map f_path tree) ->
      forall p, In p (warned (index_memory_files tree db)) ->
        rows_at p (table (index_memory_files tree db)) = 0).
Proof.
  split.
  - unfold index_memory_files. rewrite index_fold. simpl. apply index_counts.
  - intros Hnd p (f & Hf & Hdoc & Hh & Hd & ->)%in_warned.
    rewrite index_table. apply rows_at_zero.
    + apply (NoDup_filter_paths is_document tree Hnd).
    + now apply in_glob_md.
    + unfold row_of. now rewrite Hh, Hd.
Qed.

End TimelineAndIndex.

(** ** More on summaries *)

Section SummaryShape.

Import MemorySearcher.

Lemma take_nonempty n c s : PyStr.take (S n) (String c s) <> EmptyString.
Proof. discriminate. Qed.

Lemma take_empty n s : PyStr.take (S n) s = EmptyString -> s = EmptyString.
Proof. destruct s; [reflexivity | discriminate]. Qed.

(** X7. The summary of a record is empty exactly when the content is. *)
Theorem summary_empty_iff_content_empty (path text : string) :
  summary (make_record path text) = EmptyString <-> text = EmptyString.
Proof.
  cbn [summary make_record]. unfold extract_summary. split.
  - pose proof (find_first body_line
                  (PyStr.split Char.newline (PyStr.strip text))) as Hfind.
    destruct (List.find _ _) as [l|].
    + destruct Hfind as (_ & _ & _ & _ & [Hne _]%body_line_true).
      destruct (PyStr.strip l); [contradiction | discriminate].
    + intros H. now apply take_empty, take_empty in H.
  - intros ->. reflexivity.
Qed.

Lemma free_of_strip c s : free_of c s -> free_of c (PyStr.strip s).
Proof.
  intros Hs a b Heq.
  destruct (strip_spec s) as (l & r & Hsplit & _).
  apply (Hs (l +:+ a) (b +:+ r)). rewrite Hsplit at 1. rewrite Heq.
  now rewrite !append_assoc.
Qed.

Lemma free_of_take c n s : free_of c s -> free_of c (PyStr.take n s).
Proof.
  intros Hs a b Heq. apply (Hs a (b +:+ PyStr.drop n s)).
  rewrite <- (take_drop n s) at 1. rewrite Heq. now rewrite append_assoc.
Qed.

(** X8. When some line of the trimmed content is neither blank nor a
    heading, the summary is not empty, starts with a character that is
    not whitespace, and stays within one line. *)
Theorem summary_of_body_is_one_line (path text l : string) :
  In l (PyStr.split Char.newline (PyStr.strip text)) ->
  body_line l = true ->
  summary (make_record path text) <> EmptyString
  /\ trimmed_left (summary (make_record path text))
  /\ free_of Char.newline (summary (make_record path text)).
Proof.
  intros Hin Hbody. cbn [summary make_record]. unfold extract_summary.
  destruct (List.find body_line _) as [l'|] eqn:Hfind.
  - apply List.find_some in Hfind as [Hin' [Hne _]%body_line_true].
    assert (free_of Char.newline (PyStr.strip l')) as Hfree.
    { apply free_of_strip. intros a b. now apply split_pieces with (s := PyStr.strip text). }
    destruct (strip_spec l') as (_ & _ & _ & _ & _ & _ & [He | Hleft]); [contradiction|].
    destruct (PyStr.strip l') as [|c t] eqn:Ht; [contradiction|].
    split; [discriminate|]. split; [exact Hleft|].
    now apply free_of_take.
  - pose proof (List.find_none _ _ Hfind l Hin). congruence.
Qed.

Lemma summary_of_body_is_one_line_witness :
  summary (make_record "memory/indented.md" indented_doc) <> EmptyString
  /\ trimmed_left (summary (make_record "memory/indented.md" indented_doc))
  /\ free_of Char.newline (summary (make_record "memory/indented.md" indented_doc)).
Proof.
  apply (summary_of_body_is_one_line "memory/indented.md" indented_doc "foo").
  - vm_compute. auto.
  - vm_compute. reflexivity.
Defined.

End SummaryShape.

(** ** More on tags *)

Section TagComposition.

Import MemorySearcher.

Lemma take_word_before sep s b :
  Char.is_word sep = false -> Re.take_word (s +:+ String sep b) = Re.take_word s.
Proof.
  intros Hsep. induction s as [|x s IH]; simpl; [now rewrite Hsep|].
  destruct (Char.is_word x); [now rewrite IH | reflexivity].
Qed.

Lemma drop_word_before sep s b :
  Char.is_word sep = false ->
  Re.drop_word (s +:+ String sep b) = Re.drop_word s +:+ String sep b.
Proof.
  intros Hsep. induction s as [|x s IH]; simpl; [now rewrite Hsep|].
  destruct (Char.is_word x); [exact IH | reflexivity].
Qed.

(** The matches of a text cut in two before a character that is not a
    word character are the matches of the first part followed by those of
    the second. *)
Lemma findall_append sep a b :
  Char.is_word sep = false ->
  Re.findall (a +:+ String sep b) = Re.findall a ++ Re.findall (String sep b).
Proof.
  intros Hsep. funelim (Re.findall a).
  - reflexivity.
  - simpl. rewrite findall_cons. unfold Re.tag_here in *.
    rewrite take_word_before, Heq, drop_word_before by assumption.
    simpl. f_equal. now apply H.
  - simpl. rewrite findall_cons. unfold Re.tag_here in *.
    rewrite take_word_before, Heq by assumption. now apply H.
Qed.

Lemma findall_skip x s : Char.is_hash x = false -> Re.findall (String x s) = Re.findall s.
Proof. intros Hx. rewrite findall_cons. unfold Re.tag_here. now rewrite Hx. Qed.

(** A token followed by text that does not continue it is the first match. *)
Lemma findall_token t rest :
  is_tag t -> not_word_start rest -> Re.findall (t +:+ rest) = t :: Re.findall rest.
Proof.
  intros (w & -> & Hne & Hw) Hr. simpl. rewrite findall_cons.
  assert (Re.tag_here Char.hash (w +:+ rest) = true) as ->.
  { apply tag_here_true. split; [reflexivity|]. now exists w, rest. }
  now rewrite take_word_append, drop_word_append.
Qed.

(** Reading the tokens back from their join with spaces gives the tokens. *)
Lemma findall_join toks :
  Forall is_tag toks -> Re.findall (PyStr.join " " toks) = toks.
Proof.
  unfold PyStr.join. induction 1 as [|t toks Ht Htoks IH]; [reflexivity|].
  destruct toks as [|t' toks].
  - simpl. rewrite <- (append_nil_r t) at 1.
    now rewrite findall_token.
  - change (String.concat " " (t :: t' :: toks))
      with (t +:+ String Char.space (String.concat " " (t' :: toks))).
    rewrite findall_token by (assumption || reflexivity).
    rewrite findall_skip by reflexivity. now rewrite IH.
Qed.

(** X9. Extracting the tags of the stored tags gives the stored tags
    again: the tags of a record hold the tokens of its content and
    nothing that reads as another token. *)
Theorem extract_tags_idempotent (path text : string) :
  extract_tags (tags (make_record path text)) = tags (make_record path text)
  /\ Re.findall (tags (make_record path text)) = Re.findall text.
Proof.
  cbn [tags make_record]. unfold extract_tags.
  assert (Re.findall (PyStr.join " " (Re.findall text)) = Re.findall text) as H
    by apply findall_join, findall_all_tags.
  split; [now rewrite H | exact H].
Qed.

(** X10. When a text is extended by a part that starts with a character
    that is not a word character, the tokens of the first part stay as
    they are and those of the added part follow them. *)
Theorem findall_of_extended_text (sep : ascii) (text added : string) :
  Char.is_word sep = false ->
  Re.findall (text +:+ String sep added)
  = Re.findall text ++ Re.findall (String sep added).
Proof. intros Hsep. now apply findall_append. Qed.

Lemma findall_of_extended_text_witness :
  Re.findall ("about #memory" +:+ String Char.newline "and #tools")
  = Re.findall "about #memory" ++ Re.findall (String Char.newline "and #tools").
Proof.
  apply (findall_of_extended_text Char.newline "about #memory" "and #tools").
  vm_compute. reflexivity.
Defined.

End TagComposition.

(** ** More on reading the content of paths *)

Section ContentKeys.

Import MemorySearcher.

Lemma get_content_from_dom fs paths :
  forall acc d,
    get_content_from fs acc paths = inr d ->
    dom d = dom acc ∪ list_to_set (List.map PyPath.name paths)
    /\ Forall (fun p => is_Some (fs !! p)) paths.
Proof.
  induction paths as [|p paths IH]; intros acc d; simpl.
  - intros [= <-]. split; [|constructor].
    change (dom acc = dom acc ∪ (∅ : gset string)).
    now rewrite (right_id_L ∅ (∪)).
  - destruct (fs !! p) as [text|] eqn:Hp; [|discriminate].
    intros [Hdom Hall]%IH. split; [|constructor; eauto].
    rewrite Hdom, dom_insert_L.
    change (list_to_set (PyPath.name p :: List.map PyPath.name paths) : gset string)
      with ({[PyPath.name p]} ∪ list_to_set (List.map PyPath.name paths) : gset string).
    rewrite (comm_L (∪) {[PyPath.name p]} (dom acc)).
    now rewrite (assoc_L (∪)).
Qed.

Lemma size_list_to_set_le (l : list string) :
  size (list_to_set l : gset string) <= List.length l.
Proof.
  induction l as [|x l IH].
  - now rewrite list_to_set_nil, size_empty.
  - rewrite list_to_set_cons, size_union_alt, size_singleton.
    pose proof (subseteq_size (list_to_set l ∖ {[x]}) (list_to_set l : gset string)) as Hle.
    assert (list_to_set l ∖ {[x]} ⊆ (list_to_set l : gset string)) as Hsub
      by apply subseteq_difference_l, reflexivity.
    specialize (Hle Hsub). simpl. lia.
Qed.

(** X11. When [get_content] returns, every path of the list could be
    read, and the result has one key for each distinct name among the
    paths: never more keys than paths, and no key holds a slash. *)
Theorem get_content_keys
    (fs : gmap string string) (paths : list string) (d : gmap string string) :
  get_content fs paths = inr d ->
  Forall (fun p => is_Some (fs !! p)) paths
  /\ dom d = list_to_set (List.map PyPath.name paths)
  /\ size d <= List.length paths
  /\ forall k, k ∈ dom d -> free_of Char.slash k.
Proof.
  unfold get_content. intros [Hdom Hall]%get_content_from_dom.
  rewrite dom_empty_L, (left_id_L ∅ (∪)) in Hdom.
  split; [exact Hall|]. split; [exact Hdom|]. split.
  - rewrite <- size_dom, Hdom.
    etransitivity; [apply size_list_to_set_le|]. now rewrite List.length_map.
  - intros k Hk. rewrite Hdom in Hk.
    apply elem_of_list_to_set, list_elem_of_In, in_map_iff in Hk as (p & <- & _).
    apply name_free_of_slash.
Qed.

Lemma get_content_keys_witness :
  Forall (fun p => is_Some (sample_fs !! p)) ["memory/a.md"; "archive/a.md"]
  /\ dom ({[ "a.md" := "older" ]} : gmap string string)
     = list_to_set (List.map PyPath.name ["memory/a.md"; "archive/a.md"])
  /\ size ({[ "a.md" := "older" ]} : gmap string string) <= 2
  /\ forall k, k ∈ dom ({[ "a.md" := "older" ]} : gmap string string) ->
       free_of Char.slash k.
Proof.
  apply (get_content_keys sample_fs ["memory/a.md"; "archive/a.md"]
           {[ "a.md" := "older" ]}).
  vm_compute. reflexivity.
Defined.

End ContentKeys.

(** ** The files the writer names *)

Section WriterNames.

Import MemorySearcher SessionCapture.

Lemma append_cut a b x c y :
  a +:+ b = x +:+ String c y ->
  (exists y1, a = x +:+ String c y1 /\ y = y1 +:+ b)
  \/ (exists x2, x = a +:+ x2 /\ b = x2 +:+ String c y).
Proof.
  revert x; induction a as [|d a IH]; intros x Heq; simpl in Heq.
  - right. now exists x.
  - destruct x as [|e x]; simpl in Heq.
    + injection Heq as -> <-. left. now exists a.
    + injection Heq as -> Heq. destruct (IH x Heq) as [(y1 & -> & ->) | (x2 & -> & ->)].
      * left. now exists y1.
      * right. now exists x2.
Qed.

Lemma all_chars_append f a b :
  all_chars f a -> all_chars f b -> all_chars f (a +:+ b).
Proof.
  intros Ha Hb x c y Heq.
  destruct (append_cut _ _ _ _ _ Heq) as [(y1 & Heq1 & _) | (x2 & _ & Heq2)].
  - now apply (Ha x c y1).
  - now apply (Hb x2 c y).
Qed.

Lemma all_chars_part f l s r : all_chars f (l +:+ s +:+ r) -> all_chars f s.
Proof.
  intros H a c b ->. apply (H (l +:+ a) c (b +:+ r)).
  now rewrite !append_assoc.
Qed.

Lemma all_chars_strip f s : all_chars f s -> all_chars f (PyStr.strip s).
Proof.
  intros H. destruct (strip_spec s) as (l & r & Heq & _).
  rewrite Heq in H. now apply all_chars_part in H.
Qed.

Lemma all_chars_take f n s : all_chars f s -> all_chars f (PyStr.take n s).
Proof.
  intros H. rewrite <- (take_drop n s) in H.
  apply (all_chars_part f EmptyString _ (PyStr.drop n s)). exact H.
Qed.

Lemma all_chars_keep_only f s : all_chars f (keep_only f s).
Proof.
  induction s as [|d s IH]; simpl.
  - intros [|? ?] ? ? [=].
  - destruct (f d) eqn:Hd; [|exact IH].
    intros [|e a] c b; simpl; intros [= -> Heq]; [now subst | now apply (IH a c b)].
Qed.

Lemma all_chars_free_of f c s : f c = false -> all_chars f s -> free_of c s.
Proof. intros Hc H a b ->. specialize (H a c b eq_refl). congruence. Qed.

Lemma all_chars_literal f s :
  List.forallb f (list_ascii_of_string s) = true -> all_chars f s.
Proof.
  induction s as [|d s IH]; simpl.
  - intros _ [|? ?] ? ? [=].
  - intros [Hd Hs]%andb_true_iff [|e a] c b; simpl; intros [= -> Heq];
      [now subst | now apply (IH Hs a c b)].
Qed.

(** X12. The title [compress] puts into a file name is at most 100
    characters of word characters, whitespace and hyphens: it holds no
    slash and no dot, whatever title was asked for. *)
Theorem sanitize_title_keeps_safe_characters (title : string) :
  String.length (sanitize_title title) <= 100
  /\ all_chars kept (sanitize_title title)
  /\ free_of Char.slash (sanitize_title title)
  /\ free_of "."%char (sanitize_title title).
Proof.
  assert (all_chars kept (sanitize_title title)) as H
    by apply all_chars_take, all_chars_strip, all_chars_keep_only.
  split; [unfold sanitize_title; rewrite length_take; lia|].
  split; [exact H|]. split; now apply (all_chars_free_of kept).
Qed.

Lemma all_chars_impl (f g : ascii -> bool) s :
  (forall c, f c = true -> g c = true) -> all_chars f s -> all_chars g s.
Proof. intros Hfg H a c b Heq. apply Hfg. now apply (H a c b). Qed.

Lemma split_append sep a n :
  PyStr.split sep (a +:+ String sep n) = PyStr.split sep a ++ PyStr.split sep n.
Proof.
  induction a as [|x a IH]; simpl.
  - now rewrite Ascii.eqb_refl.
  - rewrite IH. destruct (Ascii.eqb x sep); [reflexivity|].
    pose proof (split_nonempty sep a) as Hne.
    destruct (PyStr.split sep a); [contradiction | reflexivity].
Qed.

Lemma split_free sep n : free_of sep n -> PyStr.split sep n = [n].
Proof.
  induction n as [|x n IH]; intros Hfree; [reflexivity|]. simpl.
  destruct (Ascii.eqb_spec x sep) as [-> | Hx].
  - now destruct (Hfree EmptyString n).
  - rewrite IH; [reflexivity|]. intros a b ->. now apply (Hfree (String x a) b).
Qed.

(** The name of a file put into a directory under a name of one
    component is that name. *)
Lemma name_of_joined dir n :
  free_of Char.slash n -> n <> EmptyString -> n <> "." ->
  PyPath.name (dir +:+ String Char.slash n) = n.
Proof.
  intros Hfree Hne Hdot. unfold PyPath.name, PyPath.parts.
  rewrite split_append, (split_free _ _ Hfree), List.filter_app. simpl.
  apply truthy_true in Hne as ->. apply String.eqb_neq in Hdot as ->. simpl.
  apply List.last_last.
Qed.

Lemma search_here pat s :
  Re.match_here pat s = true ->
  Re.search pat s = Some (PyStr.take (List.length pat) s).
Proof. intros H. destruct s; simpl; now rewrite H. Qed.

(** A name that starts with a date has that date, whatever follows. *)
Lemma extract_date_prefix d rest :
  date_shape d -> extract_date (d +:+ rest) = d.
Proof.
  intros Hd%date_shape_iff. unfold extract_date.
  rewrite search_here by (apply match_here_shape; now exists d, rest).
  rewrite <- (has_shape_length _ _ Hd). now rewrite take_append.
Qed.

Lemma endswith_append a p : PyStr.endswith (a +:+ p) p = true.
Proof.
  unfold PyStr.endswith, PyStr.len. rewrite length_append.
  replace (String.length a + String.length p - String.length p)
    with (String.length a) by lia.
  apply andb_true_iff. split; [|apply Nat.leb_le; lia].
  apply String.eqb_eq. clear. induction a as [|x a IH]; simpl; [|exact IH].
  now destruct p.
Qed.

Lemma date_shape_not_slash d : date_shape d -> all_chars not_slash d.
Proof.
  intros (y1 & y2 & y3 & y4 & m1 & m2 & d1 & d2 & -> & HF).
  assert (Hdig : forall c, Char.is_digit c = true -> not_slash c = true).
  { intros c Hc. unfold not_slash.
    destruct (Ascii.eqb_spec c Char.slash) as [-> | _]; [discriminate Hc | reflexivity]. }
  repeat match goal with H : Forall _ (_ :: _) |- _ => inversion_clear H end.
  apply all_chars_literal. simpl. rewrite !Hdig by assumption. reflexivity.
Qed.

Lemma used_title_not_slash title hhmm :
  all_chars Char.is_digit hhmm -> all_chars not_slash (used_title title hhmm).
Proof.
  intros Hh.
  assert (all_chars not_slash ("conversation-" +:+ hhmm)) as Hfall.
  { apply all_chars_append; [now apply all_chars_literal|].
    apply (all_chars_impl Char.is_digit); [|exact Hh].
    intros c Hc. unfold not_slash.
    destruct (Ascii.eqb_spec c Char.slash) as [-> | _]; [discriminate Hc | reflexivity]. }
  unfold used_title. destruct title as [t|]; [|exact Hfall].
  destruct (PyStr.truthy t); [|exact Hfall].
  destruct (PyStr.truthy (sanitize_title t)); [|exact Hfall].
  apply (all_chars_impl kept).
  - intros c Hc. unfold not_slash.
    destruct (Ascii.eqb_spec c Char.slash) as [-> | _]; [discriminate Hc | reflexivity].
  - apply all_chars_take, all_chars_strip, all_chars_keep_only.
Qed.

Lemma dated_name_facts dir d rest text :
  date_shape d -> all_chars not_slash rest ->
  PyPath.name (dir +:+ String Char.slash (d +:+ rest +:+ ".md")) = d +:+ rest +:+ ".md"
  /\ is_document {| f_path := dir +:+ String Char.slash (d +:+ rest +:+ ".md");
                    f_data := Some text |} = true
  /\ hidden {| f_path := dir +:+ String Char.slash (d +:+ rest +:+ ".md");
               f_data := Some text |} = false
  /\ date_created
       (make_record (dir +:+ String Char.slash (d +:+ rest +:+ ".md")) text) = d.
Proof.
  intros Hd Hrest.
  assert (PyPath.name (dir +:+ String Char.slash (d +:+ rest +:+ ".md"))
          = d +:+ rest +:+ ".md") as Hname.
  { apply name_of_joined.
    - apply (all_chars_free_of not_slash); [reflexivity|].
      apply all_chars_append; [now apply date_shape_not_slash|].
      apply all_chars_append; [assumption | now apply all_chars_literal].
    - destruct Hd as (? & ? & ? & ? & ? & ? & ? & ? & -> & _). discriminate.
    - destruct Hd as (? & ? & ? & ? & ? & ? & ? & ? & -> & _). discriminate. }
  unfold is_document, hidden. cbn [f_path date_created make_record].
  rewrite Hname. split; [reflexivity|]. split; [|split].
  - rewrite <- append_assoc. apply endswith_append.
  - destruct Hd as (y1 & ? & ? & ? & ? & ? & ? & ? & -> & HF).
    inversion_clear HF as [|? ? Hy1 _]. unfold PyStr.startswith.
    cbn [String.append String.prefix].
    destruct (ascii_dec "." y1) as [<- | _]; [discriminate Hy1 | reflexivity].
  - now apply extract_date_prefix.
Qed.

(** X13. A file the writer names for a day, put into the memory
    directory, is a document of that directory that is not hidden, and
    the index gives it the date of that day: neither the title asked
    for nor anything else in the name can change it. *)
Theorem written_files_get_their_date
    (dir date_str hhmm text : string) (title : option string) (name : string) :
  date_shape date_str -> all_chars Char.is_digit hhmm ->
  name = observations_name date_str \/ name = compressed_name date_str title hhmm ->
  PyPath.name (dir +:+ String Char.slash name) = name
  /\ is_document {| f_path := dir +:+ String Char.slash name; f_data := Some text |} = true
  /\ hidden {| f_path := dir +:+ String Char.slash name; f_data := Some text |} = false
  /\ date_created (make_record (dir +:+ String Char.slash name) text) = date_str.
Proof.
  intros Hd Hh [-> | ->].
  - unfold observations_name.
    change "-observations.md" with ("-observations" +:+ ".md").
    apply dated_name_facts; [assumption | now apply all_chars_literal].
  - unfold compressed_name.
    apply (dated_name_facts dir date_str ("-" +:+ used_title title hhmm) text);
      [assumption|].
    apply all_chars_append; [now apply all_chars_literal|].
    now apply used_title_not_slash.
Qed.

Lemma written_files_get_their_date_witness :
  PyPath.name ("memory" +:+ String Char.slash "2026-02-01-my  title.md")
  = "2026-02-01-my  title.md"
  /\ is_document {| f_path := "memory" +:+ String Char.slash "2026-02-01-my  title.md";
                    f_data := Some "text" |} = true
  /\ hidden {| f_path := "memory" +:+ String Char.slash "2026-02-01-my  title.md";
               f_data := Some "text" |} = false
  /\ date_created
       (make_record ("memory" +:+ String Char.slash "2026-02-01-my  title.md") "text")
     = "2026-02-01".
Proof.
  apply (written_files_get_their_date "memory" "2026-02-01" "1030" "text"
           (Some "my ../ title") "2026-02-01-my  title.md").
  - unfold date_shape. repeat eexists. repeat constructor.
  - apply all_chars_literal. vm_compute. reflexivity.
  - right. vm_compute. reflexivity.
Defined.

End WriterNames.

(** ** What the index reads in the files of the writer *)

Section WriterTags.

Import MemorySearcher SessionCapture.

Lemma topic_tags_are_tags text : Forall is_tag (topic_tags text).
Proof.
  unfold topic_tags. apply List.Forall_forall. intros t Ht.
  apply in_map_iff in Ht as (kw & <- & [Hkw _]%filter_In).
  assert (forall w, w <> EmptyString -> all_word w -> is_tag (String Char.hash w)) as Htag
    by (intros w ? ?; now exists w).
  unfold keywords in Hkw. simpl in Hkw.
  destruct Hkw as [<- | [<- | [<- | [<- | []]]]];
    (apply Htag; [discriminate | simpl; repeat split]).
Qed.

Lemma in_extract_tags t text :
  t ∈ extract_tags text <-> In t (Re.findall text) \/ In t (topic_tags text).
Proof.
  unfold extract_tags.
  now rewrite elem_of_union, !elem_of_list_to_set, !list_elem_of_In.
Qed.

Lemma listed_tags text tags :
  Permutation tags (elements (extract_tags text)) ->
  Forall is_tag tags /\ forall t, In t (Re.findall text) -> In t tags.
Proof.
  intros Hp. split.
  - apply List.Forall_forall. intros t Ht.
    apply (Permutation_in _ Hp), list_elem_of_In, elem_of_elements,
      in_extract_tags in Ht as [Ht | Ht].
    + pose proof (findall_all_tags text) as Hall.
      rewrite List.Forall_forall in Hall. now apply Hall.
    + pose proof (topic_tags_are_tags text) as Hall.
      rewrite List.Forall_forall in Hall. now apply Hall.
  - intros t Ht. apply (Permutation_in _ (Permutation_sym Hp)).
    apply list_elem_of_In, elem_of_elements, in_extract_tags. now left.
Qed.

Lemma findall_rule : Re.findall ("---" +:+ nl2) = [].
Proof. vm_compute. reflexivity. Qed.

(** The tokens of a tags line and the rule after it are the tags. *)
Lemma findall_tags_line tags :
  Forall is_tag tags ->
  Re.findall (tags_line tags nl2 +:+ "---" +:+ nl2) = tags.
Proof.
  intros Htags. destruct tags as [|t tags]; [apply findall_rule|].
  unfold tags_line. remember (t :: tags) as l eqn:Hl.
  change (("tags: " +:+ PyStr.join " " l +:+ nl2) +:+ "---" +:+ nl2)
    with ("tags: " +:+ ((PyStr.join " " l +:+ nl2) +:+ "---" +:+ nl2)).
  rewrite append_assoc.
  change ("tags: " +:+ PyStr.join " " l +:+ nl2 +:+ "---" +:+ nl2)
    with (String "t" (String "a" (String "g" (String "s" (String ":" (String " "
            (PyStr.join " " l +:+ String Char.newline
               (String Char.newline ("---" +:+ nl2))))))))).
  rewrite !findall_skip by reflexivity.
  rewrite findall_append by reflexivity.
  rewrite findall_join by assumption.
  rewrite !findall_skip by reflexivity. rewrite findall_rule. apply app_nil_r.
Qed.

Lemma capture_heading_starts_with_hash old date_str hhmm obs_type :
  exists rest, capture_heading old date_str hhmm obs_type = String Char.hash rest.
Proof.
  unfold capture_heading, day_header. destruct (PyStr.truthy old); simpl; eauto.
Qed.

Lemma capture_text_parts old date_str hhmm obs_type content tags :
  capture_text old date_str hhmm obs_type content tags
  = (old +:+ capture_heading old date_str hhmm obs_type)
    +:+ String Char.newline
          (String Char.newline
             (content +:+ String Char.newline
                (String Char.newline (tags_line tags nl2 +:+ "---" +:+ nl2)))).
Proof.
  unfold capture_text, capture_heading, nl2 at 1 2. now rewrite !append_assoc.
Qed.

(** X14. After [capture] appended an observation to a file, the tokens
    the index reads in the file are those it read before, then those of
    the heading, then those of the content, then the tags the writer
    listed: every token of the content is read at least twice. *)
Theorem captured_tags_are_read_twice
    (old date_str hhmm obs_type content : string) (tags : list string) :
  Permutation tags (elements (extract_tags content)) ->
  Re.findall (capture_text old date_str hhmm obs_type content tags)
  = Re.findall old
    ++ Re.findall (capture_heading old date_str hhmm obs_type)
    ++ Re.findall content ++ tags
  /\ forall t, In t (Re.findall content) ->
       2 <= count_occ string_dec
              (Re.findall (capture_text old date_str hhmm obs_type content tags)) t.
Proof.
  intros [Htags Hin]%listed_tags.
  assert (Re.findall (capture_text old date_str hhmm obs_type content tags)
          = Re.findall old
            ++ Re.findall (capture_heading old date_str hhmm obs_type)
            ++ Re.findall content ++ tags) as Heq.
  { rewrite capture_text_parts.
    rewrite findall_append by reflexivity.
    rewrite !findall_skip by reflexivity.
    rewrite findall_append by reflexivity.
    rewrite !findall_skip by reflexivity.
    rewrite findall_tags_line by assumption.
    destruct (capture_heading_starts_with_hash old date_str hhmm obs_type)
      as [rest ->].
    rewrite findall_append by reflexivity. now rewrite <- !app_assoc. }
  split; [exact Heq|]. intros t Ht. rewrite Heq, !count_occ_app.
  pose proof (proj1 (count_occ_In string_dec _ t) Ht).
  pose proof (proj1 (count_occ_In string_dec _ t) (Hin t Ht)). lia.
Qed.

Lemma captured_tags_are_read_twice_witness :
  Re.findall (capture_text "" "2026-02-01" "10:30" "decision"
                "We decided to use #memory" ["#decision"; "#memory"])
  = Re.findall ""
    ++ Re.findall (capture_heading "" "2026-02-01" "10:30" "decision")
    ++ Re.findall "We decided to use #memory" ++ ["#decision"; "#memory"]
  /\ forall t, In t (Re.findall "We decided to use #memory") ->
       2 <= count_occ string_dec
              (Re.findall (capture_text "" "2026-02-01" "10:30" "decision"
                             "We decided to use #memory" ["#decision"; "#memory"])) t.
Proof.
  apply (captured_tags_are_read_twice "" "2026-02-01" "10:30" "decision"
           "We decided to use #memory" ["#decision"; "#memory"]).
  apply NoDup_Permutation.
  - apply (bool_decide_unpack _). vm_compute. exact I.
  - apply NoDup_elements.
  - intros t. rewrite elem_of_elements, in_extract_tags, list_elem_of_In.
    vm_compute. tauto.
Defined.

End WriterTags.

(** ** The lines [compress] files *)

Section WriterLines.

Import MemorySearcher SessionCapture.

Lemma in_snoc {A : Type} (x y : A) l : In x (l ++ [y]) <-> In x l \/ x = y.
Proof. rewrite in_app_iff. simpl. intuition. Qed.

(** Filing one more line of the conversation keeps the lists well sorted
    and adds at most one line to them. *)
Lemma sort_line_step conversation b raw :
  In raw (PyStr.split Char.newline conversation) ->
  well_sorted conversation b ->
  well_sorted conversation (sort_line b raw)
  /\ filed_count (sort_line b raw) <= S (filed_count b).
Proof.
  intros Hraw Hb. pose proof Hb as (Hd & Hq & Ha & Hi).
  unfold sort_line.
  destruct (PyStr.truthy (PyStr.strip raw)) eqn:Hne; cbn [negb];
    [|split; [exact Hb | lia]].
  assert (filed_from conversation (PyStr.strip raw)) as Hfiled
    by (split; [now apply truthy_true | now exists raw]).
  fold (short_question (PyStr.strip raw)).
  assert (Hgrow : forall l (x : string), List.length (l ++ [x]) = S (List.length l))
    by (intros; rewrite List.length_app; simpl; lia).
  destruct (any_in (lower (PyStr.strip raw)) decision_markers) eqn:Hdec.
  { split; [|unfold filed_count; simpl; rewrite Hgrow; lia].
    refine (conj _ (conj _ (conj _ _))); simpl; try assumption.
    intros l [Hl | ->]%in_snoc; auto. }
  destruct (short_question (PyStr.strip raw)) eqn:Hshort.
  { split; [|unfold filed_count; simpl; rewrite Hgrow; lia].
    refine (conj _ (conj _ (conj _ _))); simpl; try assumption.
    intros l [Hl | ->]%in_snoc; auto. }
  destruct (any_in (lower (PyStr.strip raw)) action_markers) eqn:Hact.
  { split; [|unfold filed_count; simpl; rewrite Hgrow; lia].
    refine (conj _ (conj _ (conj _ _))); simpl; try assumption.
    intros l [Hl | ->]%in_snoc; auto. }
  destruct (any_in (lower (PyStr.strip raw)) insight_markers) eqn:Hins.
  { split; [|unfold filed_count; simpl; rewrite Hgrow; lia].
    refine (conj _ (conj _ (conj _ _))); simpl; try assumption.
    intros l [Hl | ->]%in_snoc; auto 6. }
  split; [exact Hb | lia].
Qed.

Lemma sort_lines_fold conversation lines :
  forall b,
    (forall raw, In raw lines -> In raw (PyStr.split Char.newline conversation)) ->
    well_sorted conversation b ->
    well_sorted conversation (List.fold_left sort_line lines b)
    /\ filed_count (List.fold_left sort_line lines b)
       <= filed_count b + List.length lines.
Proof.
  induction lines as [|raw lines IH]; intros b Hsub Hb; simpl.
  - split; [assumption | lia].
  - destruct (sort_line_step conversation b raw) as [Hb' Hcount];
      [apply Hsub; now left | assumption |].
    destruct (IH (sort_line b raw)) as [Hfinal Hlen];
      [intros r Hr; apply Hsub; now right | assumption |].
    split; [assumption | lia].
Qed.

(** X15. Every line [compress] files is the trimmed, non-empty form of a
    line of the conversation and sits in the first of the lists
    decisions, questions, actions, insights whose test it passes; a line
    is filed at most once, so the lists hold no more lines than the
    conversation has. *)
Theorem sort_lines_files_each_line_once (conversation : string) :
  well_sorted conversation (sort_lines conversation)
  /\ filed_count (sort_lines conversation)
     <= List.length (PyStr.split Char.newline conversation).
Proof.
  unfold sort_lines.
  destruct (sort_lines_fold conversation (PyStr.split Char.newline conversation)
              {| decisions := []; actions := []; insights := []; questions := [] |})
    as [Hsorted Hcount].
  - auto.
  - unfold well_sorted. simpl. refine (conj _ (conj _ (conj _ _))); intros l [].
  - split; [exact Hsorted | exact Hcount].
Qed.

End WriterLines.

(** ** The summary of a file [compress] wrote *)

Section WriterSummary.

Import MemorySearcher SessionCapture.














End WriterSummary.
